(** * Shadow-Bind: notification dispatch, batching and click routing

    A shallow embedding of the notification core of the application:
    - [lib/notifications/service.js]  (module [Service]): the dispatcher
      [sendNotification], the preference gate, the batching queue and the
      grouper, and the page-side click handler;
    - [public/sw-notifications.js]    (module [Worker]): the service worker
      that displays notifications and resolves clicks to a target URL.

    JavaScript objects used as maps are [gmap string _]; optional properties
    are [option]; the clock, the random id fragment and the browser's
    notification surface are explicit inputs of each call. *)

From Stdlib Require Import ZArith String List Bool Lia DecimalString.
From Stdlib Require DecimalPos DecimalZ.
From stdpp Require Import gmap strings list fin_maps.
From stdpp Require gmultiset.

Local Open Scope string_scope.
Local Open Scope list_scope.

(** ** JavaScript values and the coercions the code relies on *)

Module Js.

(** The values that occur in notification payloads. A property that is
    absent ([undefined]) is [None] at the lookup. [Num z] stands for an
    integer-valued number in the safe range, [|z| < 2^53], where the number
    is exact and is printed in plain decimal: timestamps, counts and ids. *)
Inductive value :=
| Null
| Bool (b : bool)
| Num (z : Z)
| Str (s : string)
| Arr (l : list string).

#[global] Instance value_eq_dec : EqDecision value.
Proof. solve_decision. Defined.

(** [if (v)], [v || d], [!v]. *)
Definition truthy (v : option value) : bool :=
  match v with
  | None => false
  | Some Null => false
  | Some (Bool b) => b
  | Some (Num z) => negb (z =? 0)%Z
  | Some (Str s) => negb (String.eqb s "")
  | Some (Arr _) => true
  end.

(** Decimal rendering of integers, as template literals do. *)
Definition of_Z (z : Z) : string := NilZero.string_of_int (Z.to_int z).
Definition of_nat (n : nat) : string := NilZero.string_of_uint (Nat.to_uint n).

(** [`${v}`] *)
Definition template (v : option value) : string :=
  match v with
  | None => "undefined"
  | Some Null => "null"
  | Some (Bool true) => "true"
  | Some (Bool false) => "false"
  | Some (Num z) => of_Z z
  | Some (Str s) => s
  | Some (Arr l) => String.concat "," l
  end.

(** [v === 'literal'], the comparison a [switch] performs. *)
Definition is_str (v : option value) (s : string) : bool :=
  match v with
  | Some (Str t) => String.eqb t s
  | _ => false
  end.

(** [s || d] on an optional string. *)
Definition str_or (s : option string) (d : string) : string :=
  match s with
  | Some t => if String.eqb t "" then d else t
  | None => d
  end.

(** The names every plain object inherits from [Object.prototype]. Looking
    one of them up on an object that has no own property of that name finds
    the inherited function (or, for [__proto__], the prototype object): a
    truthy value. *)
Definition objectPrototype : list string :=
  [ "constructor"; "__defineGetter__"; "__defineSetter__"; "hasOwnProperty";
    "__lookupGetter__"; "__lookupSetter__"; "isPrototypeOf";
    "propertyIsEnumerable"; "toString"; "valueOf"; "__proto__";
    "toLocaleString" ].

Definition inherited (k : string) : bool := bool_decide (k ∈ objectPrototype).

(** [Array.prototype.slice(start)] for an integer [start]. *)
Definition slice_from {A} (start : Z) (l : list A) : list A :=
  let len := Z.of_nat (length l) in
  let k := if (start <? 0)%Z then Z.max (len + start) 0 else Z.min start len in
  drop (Z.to_nat k) l.

End Js.

(** ** Constants shared by both files ([NOTIFICATIONS_CONFIG]) *)

Module Config.

Definition MESSAGE := "message".
Definition GROUP_INVITE := "group_invite".
Definition MENTION := "mention".
Definition FILE_SHARE := "file_share".
Definition SYSTEM := "system".
Definition SECURITY := "security".

Definition CATEGORIES : list string :=
  [MESSAGE; GROUP_INVITE; MENTION; FILE_SHARE; SYSTEM; SECURITY].

Definition HIGH := "high".
Definition NORMAL := "normal".
Definition LOW := "low".

Definition BATCH_SIZE : nat := 10.
Definition BATCH_DELAY : Z := 5000.

(** [DEFAULT_OPTIONS] *)
Definition DEFAULT_ICON := "/icon-192x192.png".
Definition DEFAULT_BADGE := "/badge-72x72.png".
Definition DEFAULT_VIBRATE : list Z := [100; 50; 100]%Z.

End Config.

(** An action button of a notification. *)
Record Action := { action : string; action_title : string }.

(** ** The service worker, [public/sw-notifications.js] *)

Module Worker.

Definition SW_VERSION := "1.0.0".

(** The decoded push payload, or the notification posted by the page with
    a [SHOW_NOTIFICATION] message: every property may be absent. *)
Record PushData := {
  p_title : option string;
  p_body : option string;
  p_category : option string;
  p_icon : option string;
  p_badge : option string;
  p_data : option (gmap string Js.value);
  p_actions : option (list Action);
  p_image : option string;
  p_tag : option string;
  p_requireInteraction : option bool;
  p_silent : option bool;
  p_vibrate : option (list Z)
}.

(** The options handed to [registration.showNotification]. *)
Record Options := {
  body : option string;
  icon : string;
  badge : string;
  data : gmap string Js.value;
  actions : list Action;
  image : option string;
  tag : string;
  requireInteraction : bool;
  silent : bool;
  vibrate : list Z;
  renotify : bool
}.

(** [shouldShowNotification]: preferences are not consulted yet. *)
Definition shouldShowNotification (category : string)
    (d : gmap string Js.value) : bool := true.

(** [handlePushNotification]: [Some (title, options)] is the call
    [showNotification(title, options)]; [None] when nothing is shown.
    [t_data] and [t_tag] are the two reads of [Date.now()]. The badge
    update and the analytics log that follow are console-level effects and
    are left out. *)
Definition handlePushNotification (t_data t_tag : Z) (p : PushData)
    : option (option string * Options) :=
  let category := default Config.MESSAGE (p_category p) in
  let icon := default Config.DEFAULT_ICON (p_icon p) in
  let badge := default Config.DEFAULT_BADGE (p_badge p) in
  let notificationData := default ∅ (p_data p) in
  let actions := default [] (p_actions p) in
  let requireInteraction := default false (p_requireInteraction p) in
  let silent := default false (p_silent p) in
  let vibrate := default Config.DEFAULT_VIBRATE (p_vibrate p) in
  if negb (shouldShowNotification category notificationData) then None
  else
    Some (p_title p,
          {| body := p_body p;
             icon := icon;
             badge := badge;
             data := <["swVersion" := Js.Str SW_VERSION]>
                       (<["timestamp" := Js.Num t_data]>
                          (<["category" := Js.Str category]> notificationData));
             actions := take 2 actions;
             image := p_image p;
             tag := Js.str_or (p_tag p) (category +:+ "_" +:+ Js.of_Z t_tag);
             requireInteraction := requireInteraction;
             silent := silent;
             vibrate := vibrate;
             renotify := String.eqb category Config.SECURITY |}).

(** The target URL computed by [handleNotificationClick] from the data of
    the clicked notification. *)
Definition targetUrl (d : gmap string Js.value) : Js.value :=
  let category := d !! "category" in
  let groupId := d !! "groupId" in
  let chatId := d !! "chatId" in
  let messageId := d !! "messageId" in
  let url := d !! "url" in
  let inferred :=
    if Js.is_str category Config.MESSAGE then
      if Js.truthy groupId then Js.Str ("/groups/" +:+ Js.template groupId)
      else if Js.truthy chatId then Js.Str ("/chat/" +:+ Js.template chatId)
      else Js.Str "/"
    else if Js.is_str category Config.GROUP_INVITE then
      Js.Str ("/groups/" +:+ Js.template groupId)
    else if Js.is_str category Config.MENTION then
      Js.Str ("/groups/" +:+ Js.template groupId +:+ "?message="
              +:+ Js.template messageId)
    else if Js.is_str category Config.SECURITY then
      Js.Str "/admin/security"
    else Js.Str "/notifications" in
  match url with
  | Some u => if Js.truthy url then u else inferred
  | None => inferred
  end.

(** What the click handler does with the target. *)
Inductive Navigation :=
| PostToClient (url : Js.value) (d : gmap string Js.value)
| OpenWindow (url : Js.value).

(** [handleNotificationClick]: [client_open] tells whether one of the
    windows returned by [clients.matchAll] belongs to the application. *)
Definition handleNotificationClick (client_open : bool)
    (d : gmap string Js.value) : Navigation :=
  let t := targetUrl d in
  if client_open then PostToClient t d else OpenWindow t.

End Worker.

(** ** The dispatcher, [lib/notifications/service.js] *)

Module Service.

(** *** Data *)

(** [preferences.doNotDisturbSchedule]; [stop] is the property [end]. *)
Record Schedule := { start : Z; stop : Z }.

(** [this.preferences] when it is not [null]. *)
Record Preferences := {
  categories : option (gmap string bool);
  doNotDisturb : bool;
  doNotDisturbSchedule : option Schedule
}.

(** The argument [notificationData] of [sendNotification]; the optional
    properties are the destructured ones that have a default. *)
Record Request := {
  r_title : string;
  r_body : string;
  r_category : option string;
  r_priority : option string;
  r_data : option (gmap string Js.value);
  r_actions : option (list Action);
  r_image : option string;
  r_userId : option string
}.

(** [notification.options] of a notification built by [sendNotification]:
    [DEFAULT_OPTIONS] spread, then the computed properties. *)
Record Options := {
  icon : string;
  badge : string;
  vibrate : list Z;
  requireInteraction : bool;
  silent : bool;
  o_body : string;
  o_data : gmap string Js.value;
  o_actions : list Action;
  o_image : option string;
  tag : string;
  renotify : bool
}.

Record Notification := {
  title : string;
  body : string;
  category : string;
  priority : string;
  data : gmap string Js.value;
  actions : list Action;
  image : option string;
  userId : option string;
  timestamp : Z;
  id : string;
  options : Options
}.

(** The title of a summary, the result of [getCategoryTitle]: a string, or
    the value [Object.prototype[name]] (a function; the prototype object
    itself for [__proto__]). *)
Inductive Title :=
| Text (s : string)
| Inherited (name : string).

(** The summary built by [sendGroupedNotification] has fewer properties. *)
Record SummaryOptions := {
  so_icon : string;
  so_badge : string;
  so_vibrate : list Z;
  so_requireInteraction : bool;
  so_silent : bool;
  so_body : string;
  so_tag : string;
  so_data : gmap string Js.value
}.

Record Summary := {
  s_title : Title;
  s_body : string;
  s_category : string;
  s_priority : string;
  s_data : gmap string Js.value;
  s_options : SummaryOptions
}.

(** What [sendImmediateNotification] receives. *)
Inductive Outgoing :=
| Single (n : Notification)
| Grouped (g : Summary).

(** *** The browser, as far as [sendImmediateNotification] observes it *)

Inductive WorkerState :=
| WorkerActive    (* getRegistration() gives a registration with an active worker *)
| WorkerAbsent    (* no registration, or none that is active *)
| WorkerFails.    (* getRegistration() or postMessage throws *)

Record Browser := {
  worker : WorkerState;
  permission : string;          (* Notification.permission *)
  constructor_throws : bool     (* new Notification(...) throws *)
}.

(** What became of a notification handed to the sink. *)
Inductive Outcome :=
| PostedToWorker
| ShownDirectly
| NotPermitted
| Threw.

#[global] Instance Outcome_eq_dec : EqDecision Outcome.
Proof. solve_decision. Defined.

(** One call of [sendImmediateNotification]. *)
Record Delivery := { delivered : Outgoing; outcome : Outcome }.

(** The inputs a call of [sendNotification] reads from its environment:
    the three reads of [Date.now()] in evaluation order, the fragment
    [Math.random().toString(36).substr(2, 9)], the local hour and the
    browser. *)
Record Env := {
  now_timestamp : Z;
  now_id : Z;
  random : string;
  now_data : Z;
  hour : Z;
  browser : Browser
}.

(** The fields of [NotificationsService] the dispatcher uses;
    [batchTimer] is [true] while a timeout handle is stored. *)
Record State := {
  batchQueue : list Notification;
  batchTimer : bool;
  notificationHistory : list Notification;
  preferences : option Preferences
}.

(** [constructor()] *)
Definition new : State :=
  {| batchQueue := []; batchTimer := false;
     notificationHistory := []; preferences := None |}.

(** [loadPreferences] *)
Definition defaultPreferences : Preferences :=
  {| categories :=
       Some (<[Config.MESSAGE := true]>
               (<[Config.GROUP_INVITE := true]>
                  (<[Config.MENTION := true]>
                     (<[Config.FILE_SHARE := true]>
                        (<[Config.SYSTEM := true]>
                           {[Config.SECURITY := true]})))));
     doNotDisturb := false;
     doNotDisturbSchedule := Some {| start := 22; stop := 8 |} |}.

Definition loadPreferences (s : State) : State :=
  {| batchQueue := batchQueue s; batchTimer := batchTimer s;
     notificationHistory := notificationHistory s;
     preferences := Some defaultPreferences |}.

(** *** The preference gate *)

(** [isDoNotDisturbTime], with [hour = new Date().getHours()]. *)
Definition isDoNotDisturbTime (s : State) (hour : Z) : bool :=
  match preferences s with
  | None => false
  | Some p =>
      match doNotDisturbSchedule p with
      | None => false
      | Some sch =>
          if (start sch <=? stop sch)%Z
          then (hour >=? start sch)%Z && (hour <? stop sch)%Z
          else (hour >=? start sch)%Z || (hour <? stop sch)%Z
      end
  end.

(** [preferences.categories && !preferences.categories[category]]. The
    categories are a plain object: the lookup finds the own property, and
    failing that whatever every object inherits under that name, which is
    truthy. *)
Definition categoryBlocked (p : Preferences) (category : string) : bool :=
  match categories p with
  | None => false
  | Some m =>
      negb (match m !! category with
            | Some enabled => enabled
            | None => Js.inherited category
            end)
  end.

(** [shouldSendNotification] *)
Definition shouldSendNotification (s : State) (hour : Z)
    (category priority : string) (userId : option string) : bool :=
  match preferences s with
  | None => true
  | Some p =>
      if categoryBlocked p category then false
      else if doNotDisturb p && isDoNotDisturbTime s hour
           then String.eqb priority Config.HIGH
           else true
  end.

(** *** Building notifications *)

(** [generateNotificationId] *)
Definition generateNotificationId (now : Z) (rnd : string) : string :=
  "notif_" +:+ Js.of_Z now +:+ "_" +:+ rnd.

(** The object [titles] of [getCategoryTitle]. *)
Definition titles : gmap string string :=
  <[Config.MESSAGE := "New Messages"]>
    (<[Config.GROUP_INVITE := "Group Invitations"]>
       (<[Config.MENTION := "Mentions"]>
          (<[Config.FILE_SHARE := "File Shares"]>
             (<[Config.SYSTEM := "System Notifications"]>
                {[Config.SECURITY := "Security Alerts"]})))).

(** [titles[category] || 'Notifications']: [titles] is a plain object too,
    so for a category that is none of its keys but the name of an inherited
    property the result is that inherited value, not a string. *)
Definition getCategoryTitle (category : string) : Title :=
  match titles !! category with
  | Some t => Text (Js.str_or (Some t) "Notifications")
  | None =>
      if Js.inherited category then Inherited category
      else Text "Notifications"
  end.

(** The destructuring defaults [category = CATEGORIES.MESSAGE] and
    [priority = PRIORITY.NORMAL]. *)
Definition categoryOf (r : Request) : string :=
  default Config.MESSAGE (r_category r).
Definition priorityOf (r : Request) : string :=
  default Config.NORMAL (r_priority r).

(** The object literal [notification] of [sendNotification]. *)
Definition mkNotification (e : Env) (r : Request) : Notification :=
  let category := categoryOf r in
  let priority := priorityOf r in
  let data := default ∅ (r_data r) in
  let actions := default [] (r_actions r) in
  {| title := r_title r;
     body := r_body r;
     category := category;
     priority := priority;
     data := data;
     actions := actions;
     image := r_image r;
     userId := r_userId r;
     timestamp := now_timestamp e;
     id := generateNotificationId (now_id e) (random e);
     options :=
       {| icon := Config.DEFAULT_ICON;
          badge := Config.DEFAULT_BADGE;
          vibrate := Config.DEFAULT_VIBRATE;
          requireInteraction := false;
          silent := false;
          o_body := r_body r;
          o_data := <["timestamp" := Js.Num (now_data e)]>
                      (<["priority" := Js.Str priority]>
                         (<["category" := Js.Str category]> data));
          o_actions := actions;
          o_image := r_image r;
          tag := category +:+ "_" +:+ Js.str_or (r_userId r) "system";
          renotify := String.eqb priority Config.HIGH |} |}.

(** The object literal [summaryNotification] of [sendGroupedNotification]. *)
Definition mkSummary (category : string) (notifications : list Notification)
    : Summary :=
  let count := length notifications in
  let text := Js.of_nat count +:+ " new " +:+ category +:+ " notifications" in
  let ids := Js.Arr (map id notifications) in
  {| s_title := getCategoryTitle category;
     s_body := text;
     s_category := category;
     s_priority := Config.NORMAL;
     s_data := <["notifications" := ids]>
                 (<["count" := Js.Num (Z.of_nat count)]>
                    (<["category" := Js.Str category]>
                       {["type" := Js.Str "summary"]}));
     s_options :=
       {| so_icon := Config.DEFAULT_ICON;
          so_badge := Config.DEFAULT_BADGE;
          so_vibrate := Config.DEFAULT_VIBRATE;
          so_requireInteraction := false;
          so_silent := false;
          so_body := text;
          so_tag := category +:+ "_summary";
          so_data := <["notifications" := ids]>
                       (<["category" := Js.Str category]>
                          {["type" := Js.Str "summary"]}) |} |}.

(** *** The sink *)

(** [showDirectNotification] *)
Definition showDirectNotification (b : Browser) (n : Outgoing) : Outcome :=
  if String.eqb (permission b) "granted"
  then if constructor_throws b then Threw else ShownDirectly
  else NotPermitted.

(** Whether [postMessage] can clone the notification: a function is not
    cloneable, and the only function a notification can hold is an inherited
    title. *)
Definition cloneable (n : Outgoing) : bool :=
  match n with
  | Single _ => true
  | Grouped g =>
      match s_title g with
      | Text _ => true
      | Inherited name => String.eqb name "__proto__"
      end
  end.

(** [sendImmediateNotification]: the worker when it is active, the direct
    notification otherwise; when the [try] block throws ([postMessage] on a
    notification it cannot clone, or the direct notification itself), the
    [catch] block calls [showDirectNotification]. *)
Definition sendImmediateNotification (b : Browser) (n : Outgoing) : Outcome :=
  match worker b with
  | WorkerActive =>
      if cloneable n then PostedToWorker else showDirectNotification b n
  | WorkerAbsent =>
      match showDirectNotification b n with
      | Threw => showDirectNotification b n
      | o => o
      end
  | WorkerFails => showDirectNotification b n
  end.

Definition deliver (b : Browser) (n : Outgoing) : Delivery :=
  {| delivered := n; outcome := sendImmediateNotification b n |}.

(** *** Batching queue and grouper *)

(** [grouped.get(category).push(notification)], creating the entry at the
    end of the [Map] when the category is new. *)
Fixpoint groupInsert (n : Notification)
    (grouped : list (string * list Notification))
    : list (string * list Notification) :=
  match grouped with
  | [] => [(category n, [n])]
  | (c, ns) :: rest =>
      if String.eqb c (category n) then (c, ns ++ [n]) :: rest
      else (c, ns) :: groupInsert n rest
  end.

(** [groupNotifications]: a [Map] keeps its keys in insertion order. *)
Definition groupNotifications (notifications : list Notification)
    : list (string * list Notification) :=
  fold_left (fun grouped n => groupInsert n grouped) notifications [].

(** [sendGroupedNotification] *)
Definition sendGroupedNotification (b : Browser) (category : string)
    (notifications : list Notification) : Delivery :=
  match notifications with
  | [n] => deliver b (Single n)
  | _ => deliver b (Grouped (mkSummary category notifications))
  end.

(** The [for ... of grouped] loop of [processBatch] inside its [try]: a
    throwing delivery ends the loop. *)
Fixpoint sendGroups (b : Browser)
    (grouped : list (string * list Notification)) : list Delivery :=
  match grouped with
  | [] => []
  | (c, ns) :: rest =>
      let d := sendGroupedNotification b c ns in
      if decide (outcome d = Threw) then [d] else d :: sendGroups b rest
  end.

(** [processBatch] *)
Definition processBatch (b : Browser) (s : State) : State * list Delivery :=
  match batchQueue s with
  | [] => (s, [])
  | batch =>
      ({| batchQueue := []; batchTimer := false;
          notificationHistory := notificationHistory s;
          preferences := preferences s |},
       sendGroups b (groupNotifications batch))
  end.

(** [addToBatch]: push, arm the timer when none is stored, and flush at
    once (clearing the timer) when the queue has reached [BATCH_SIZE]. *)
Definition addToBatch (b : Browser) (n : Notification) (s : State)
    : State * list Delivery :=
  let s1 := {| batchQueue := batchQueue s ++ [n];
               batchTimer := batchTimer s;
               notificationHistory := notificationHistory s;
               preferences := preferences s |} in
  let s2 := if batchTimer s1 then s1
            else {| batchQueue := batchQueue s1; batchTimer := true;
                    notificationHistory := notificationHistory s1;
                    preferences := preferences s1 |} in
  if (Config.BATCH_SIZE <=? length (batchQueue s2))%nat
  then processBatch b
         {| batchQueue := batchQueue s2; batchTimer := false;
            notificationHistory := notificationHistory s2;
            preferences := preferences s2 |}
  else (s2, []).

(** The callback given to [setTimeout] in [addToBatch]. *)
Definition onBatchTimer (b : Browser) (s : State) : State * list Delivery :=
  processBatch b s.

(** *** The dispatcher *)

Definition pushHistory (n : Notification) (s : State) : State :=
  {| batchQueue := batchQueue s; batchTimer := batchTimer s;
     notificationHistory := notificationHistory s ++ [n];
     preferences := preferences s |}.

(** [sendNotification]: the returned boolean, the new state and the
    deliveries made during the call. An exception of the sink on the
    immediate path reaches the [catch], which returns [false].
    [saveNotificationHistory] only logs and is left out. *)
Definition sendNotification (e : Env) (r : Request) (s : State)
    : bool * State * list Delivery :=
  let category := categoryOf r in
  let priority := priorityOf r in
  if negb (shouldSendNotification s (hour e) category priority (r_userId r))
  then (false, s, [])
  else
    let n := mkNotification e r in
    if String.eqb priority Config.HIGH then
      let d := deliver (browser e) (Single n) in
      if decide (outcome d = Threw) then (false, s, [d])
      else (true, pushHistory n s, [d])
    else
      let '(s', ds) := addToBatch (browser e) n s in
      (true, pushHistory n s', ds).

(** A sequence of calls, each awaited before the next is made (the
    function is [async]: a call that is not awaited can overlap the next
    one); each call has its own environment. *)
Fixpoint run (calls : list (Env * Request)) (s : State)
    : State * list (bool * list Delivery) :=
  match calls with
  | [] => (s, [])
  | (e, r) :: rest =>
      let '(ok, s1, ds) := sendNotification e r s in
      let '(s2, outs) := run rest s1 in
      (s2, (ok, ds) :: outs)
  end.

(** [getNotificationHistory(limit = 50)] *)
Definition getNotificationHistory (limit : option Z) (s : State)
    : list Notification :=
  Js.slice_from (- default 50%Z limit) (notificationHistory s).

(** *** The page-side click handler *)

(** [handleNotificationClick]: the value assigned to
    [window.location.href], [None] when the handler assigns nothing. *)
Definition handleNotificationClick (category : string)
    (d : gmap string Js.value) : option string :=
  if String.eqb category Config.MESSAGE then
    if Js.truthy (d !! "groupId")
    then Some ("/groups/" +:+ Js.template (d !! "groupId"))
    else if Js.truthy (d !! "chatId")
         then Some ("/chat/" +:+ Js.template (d !! "chatId"))
         else None
  else if String.eqb category Config.GROUP_INVITE then
    Some ("/groups/" +:+ Js.template (d !! "groupId"))
  else if String.eqb category Config.MENTION then
    Some ("/groups/" +:+ Js.template (d !! "groupId") +:+ "?message="
          +:+ Js.template (d !! "messageId"))
  else Some "/notifications".

(** The handler installed by [showDirectNotification] as [notif.onclick]. *)
Definition onclick (n : Outgoing) : option string :=
  match n with
  | Single x => handleNotificationClick (category x) (data x)
  | Grouped g => handleNotificationClick (s_category g) (s_data g)
  end.

(** *** What the user sees *)

(** The title of a summary as it reaches [showNotification] in the worker:
    the string, or for the one inherited title that survives the clone (the
    empty object that [__proto__] becomes) its rendering as a string. *)
Definition postedTitle (t : Title) : option string :=
  match t with
  | Text s => Some s
  | Inherited _ => Some "[object Object]"
  end.

(** The notification as the worker's [message] listener receives it:
    [handlePushNotification] destructures the top-level properties. *)
Definition toPush (n : Outgoing) : Worker.PushData :=
  match n with
  | Single x =>
      {| Worker.p_title := Some (title x);
         Worker.p_body := Some (body x);
         Worker.p_category := Some (category x);
         Worker.p_icon := None;
         Worker.p_badge := None;
         Worker.p_data := Some (data x);
         Worker.p_actions := Some (actions x);
         Worker.p_image := image x;
         Worker.p_tag := None;
         Worker.p_requireInteraction := None;
         Worker.p_silent := None;
         Worker.p_vibrate := None |}
  | Grouped g =>
      {| Worker.p_title := postedTitle (s_title g);
         Worker.p_body := Some (s_body g);
         Worker.p_category := Some (s_category g);
         Worker.p_icon := None;
         Worker.p_badge := None;
         Worker.p_data := Some (s_data g);
         Worker.p_actions := None;
         Worker.p_image := None;
         Worker.p_tag := None;
         Worker.p_requireInteraction := None;
         Worker.p_silent := None;
         Worker.p_vibrate := None |}
  end.

(** The [renotify] flag of the notification that appears, per outcome:
    the worker computes its own, the direct fallback passes
    [notification.options] (a summary has no such property). *)
Definition shownRenotify (t_data t_tag : Z) (d : Delivery) : option bool :=
  match outcome d with
  | PostedToWorker =>
      match Worker.handlePushNotification t_data t_tag (toPush (delivered d)) with
      | Some (_, o) => Some (Worker.renotify o)
      | None => None
      end
  | ShownDirectly =>
      match delivered d with
      | Single x => Some (renotify (options x))
      | Grouped _ => Some false
      end
  | NotPermitted | Threw => None
  end.

End Service.

Import Service.

(** ** Derived notions *)

(** The preference check as [sendNotification] consults it. *)
Definition accepts (e : Env) (r : Request) (s : State) : bool :=
  shouldSendNotification s (hour e) (categoryOf r) (priorityOf r) (r_userId r).

(** The notifications a sequence of calls builds, in call order. *)
Definition mkAll (calls : list (Env * Request)) : list Notification :=
  map (λ c, mkNotification c.1 c.2) calls.

(** ** Sample inputs *)

(** A browser with an active service worker. *)
Definition quietBrowser : Browser :=
  {| worker := WorkerActive; permission := "granted";
     constructor_throws := false |}.

(** A browser without one, where the page may show notifications itself. *)
Definition fallbackBrowser : Browser :=
  {| worker := WorkerAbsent; permission := "granted";
     constructor_throws := false |}.

Definition envAt (h : Z) (b : Browser) : Env :=
  {| now_timestamp := 1700000000000; now_id := 1700000000000;
     random := "k3j9x2m1q"; now_data := 1700000000000;
     hour := h; browser := b |}.

Definition request (t : string) (c p : option string)
    (d : option (gmap string Js.value)) : Request :=
  {| r_title := t; r_body := "hello"; r_category := c; r_priority := p;
     r_data := d; r_actions := None; r_image := None; r_userId := None |}.

Definition threeActions : list Action :=
  [ {| action := "reply"; action_title := "Reply" |};
    {| action := "mark_read"; action_title := "Mark read" |};
    {| action := "dismiss"; action_title := "Dismiss" |} ].

Definition pushWith (c : option string) (a : option (list Action))
    : Worker.PushData :=
  {| Worker.p_title := Some "t"; Worker.p_body := Some "b";
     Worker.p_category := c; Worker.p_icon := None; Worker.p_badge := None;
     Worker.p_data := None; Worker.p_actions := a; Worker.p_image := None;
     Worker.p_tag := None; Worker.p_requireInteraction := None;
     Worker.p_silent := None; Worker.p_vibrate := None |}.

(** The loaded preferences with do-not-disturb switched on. *)
Definition nightPreferences : Preferences :=
  {| categories := categories defaultPreferences;
     doNotDisturb := true;
     doNotDisturbSchedule := Some {| start := 22; stop := 8 |} |}.

Definition nightState : State :=
  {| batchQueue := []; batchTimer := false; notificationHistory := [];
     preferences := Some nightPreferences |}.

Definition threeCalls : list (Env * Request) :=
  [ (envAt 9 quietBrowser, request "a" None None None);
    (envAt 9 quietBrowser, request "b" (Some "mention") (Some "low") None);
    (envAt 9 quietBrowser, request "c" (Some "mention") None None) ].

Definition nineCalls : list (Env * Request) :=
  replicate 9 (envAt 10 fallbackBrowser, request "hi" None None None).

(** ** The rest of the dispatcher and of the worker *)

(** The argument of [updatePreferences]: an object with some of the keys of
    the preferences. *)
Record PreferencesUpdate := {
  u_categories : option (gmap string bool);
  u_doNotDisturb : option bool;
  u_doNotDisturbSchedule : option Schedule
}.

(** [{ ...this.preferences }] when [this.preferences] is [null]: no key. *)
Definition noPreferences : Preferences :=
  {| categories := None; doNotDisturb := false; doNotDisturbSchedule := None |}.

(** [updatePreferences]: [{ ...this.preferences, ...preferences }], a
    shallow merge, key by key. *)
Definition updatePreferences (u : PreferencesUpdate) (s : State) : bool * State :=
  let old := default noPreferences (preferences s) in
  (true,
   {| batchQueue := batchQueue s; batchTimer := batchTimer s;
      notificationHistory := notificationHistory s;
      preferences :=
        Some {| categories :=
                  match u_categories u with
                  | Some m => Some m
                  | None => categories old
                  end;
                doNotDisturb := default (doNotDisturb old) (u_doNotDisturb u);
                doNotDisturbSchedule :=
                  match u_doNotDisturbSchedule u with
                  | Some sch => Some sch
                  | None => doNotDisturbSchedule old
                  end |} |}).

(** What happens to the service between two observations: a call of
    [sendNotification], or the timeout of [addToBatch] running its callback.
    Sequences of events are not restricted: a callback may appear where no
    timeout is pending, in which case it finds the queue empty or flushes
    early; what is proved of all sequences holds of the real ones. *)
Inductive Event :=
| Send (e : Env) (r : Request)
| TimerFires (b : Browser).

Definition step (ev : Event) (s : State) : State * list Delivery :=
  match ev with
  | Send e r => ((sendNotification e r s).1.2, (sendNotification e r s).2)
  | TimerFires b => onBatchTimer b s
  end.

Fixpoint runEvents (evs : list Event) (s : State) : State * list Delivery :=
  match evs with
  | [] => (s, [])
  | ev :: rest =>
      let '(s1, ds1) := step ev s in
      let '(s2, ds2) := runEvents rest s1 in
      (s2, ds1 ++ ds2)
  end.


(** The calls of a sequence that returned [true]. *)
Definition acceptedCalls (calls : list (Env * Request))
    (outs : list (bool * list Delivery)) : list (Env * Request) :=
  (filter (λ co, co.2.1 = true) (zip calls outs)).*1.

(** What [initialize] observes of the platform: whether [Notification] and
    [serviceWorker] exist, whether [register] succeeds, the answer of
    [Notification.requestPermission()] ([None] when it throws), and whether
    [subscribeToPush] succeeds. *)
Record Platform := {
  supported : bool;
  registers : bool;
  permissionAnswer : option string;
  subscribes : bool
}.

(** The service with the two fields [initialize] sets besides the
    preferences. *)
Record Lifecycle := {
  service : State;
  isInitialized : bool;
  subscription : bool
}.

(** [requestPermission]: a failure is answered by ['denied']. *)
Definition requestPermission (pf : Platform) : string :=
  default "denied" (permissionAnswer pf).

(** [initialize] *)
Definition initialize (pf : Platform) (l : Lifecycle) : bool * Lifecycle :=
  if negb (supported pf) then (false, l)
  else if negb (registers pf) then (false, l)
  else
    let l1 := {| service := loadPreferences (service l);
                 isInitialized := isInitialized l;
                 subscription := subscription l |} in
    if String.eqb (requestPermission pf) "granted" then
      if subscribes pf
      then (true, {| service := service l1; isInitialized := true;
                     subscription := true |})
      else (false, l1)
    else (true, {| service := service l1; isInitialized := true;
                   subscription := subscription l1 |}).

(** What an action button of the worker does. *)
Inductive ActionEffect :=
| OpensWindow (url : string)
| MarksMessageAsRead (messageId : option Js.value)
| AcceptsGroupInvite (groupId inviteId : option Js.value)
| NoEffect
| WarnsUnknown (action : string).

(** [a || b] on two properties. *)
Definition valueOr (a b : option Js.value) : option Js.value :=
  if Js.truthy a then a else b.

(** [handleNotificationAction] of the worker. *)
Definition handleNotificationAction (action : string)
    (d : gmap string Js.value) : ActionEffect :=
  if String.eqb action "reply" then
    OpensWindow ("/chat/" +:+ Js.template (valueOr (d !! "chatId") (d !! "groupId"))
                 +:+ "?reply=true")
  else if String.eqb action "mark_read" then
    MarksMessageAsRead (d !! "messageId")
  else if String.eqb action "dismiss" then NoEffect
  else if String.eqb action "view_group" then
    OpensWindow ("/groups/" +:+ Js.template (d !! "groupId"))
  else if String.eqb action "accept_invite" then
    AcceptsGroupInvite (d !! "groupId") (d !! "inviteId")
  else WarnsUnknown action.

(** The [notificationclick] listener: [event.action] (the empty string for a
    click on the body) and [notification.data || {}]. *)
Definition onNotificationClick (client_open : bool) (action : string)
    (d : option (gmap string Js.value))
    : ActionEffect + Worker.Navigation :=
  let data := default ∅ d in
  if negb (String.eqb action "") then inl (handleNotificationAction action data)
  else inr (Worker.handleNotificationClick client_open data).

(** What holds of the queue between events: a timeout is stored exactly
    when something is queued, and the queue is below [BATCH_SIZE]. *)
Definition queueInvariant (s : State) : Prop :=
  (batchTimer s = true ↔ batchQueue s ≠ [])
  ∧ (length (batchQueue s) < Config.BATCH_SIZE)%nat.

(** A browser whose direct notifications throw, without a worker. *)
Definition throwingBrowser : Browser :=
  {| worker := WorkerAbsent; permission := "granted";
     constructor_throws := true |}.

(** Three calls queued, then the preferences loaded and do-not-disturb
    switched on. *)
Definition busyNightState : State :=
  (updatePreferences
     {| u_categories := None; u_doNotDisturb := Some true;
        u_doNotDisturbSchedule := None |}
     (loadPreferences (run threeCalls Service.new).1)).2.

(** Do-not-disturb during the day: the night window with its ends swapped. *)
Definition dayPreferences : Preferences :=
  {| categories := categories defaultPreferences;
     doNotDisturb := true;
     doNotDisturbSchedule := Some {| start := 8; stop := 22 |} |}.

Definition dayState : State :=
  {| batchQueue := []; batchTimer := false; notificationHistory := [];
     preferences := Some dayPreferences |}.

(** Whether a string is free of the separator of notification ids. *)
Fixpoint noUnderscore (s : string) : bool :=
  match s with
  | EmptyString => true
  | String a s' => negb (Ascii.eqb a (Ascii.ascii_of_nat 95)) && noUnderscore s'
  end.

(** A platform on which every step of [initialize] succeeds but the last. *)
Definition noPushPlatform : Platform :=
  {| supported := true; registers := true;
     permissionAnswer := Some "granted"; subscribes := false |}.

Definition freshLifecycle : Lifecycle :=
  {| service := Service.new; isInitialized := false; subscription := false |}.


(** * Properties *)

(** ** The model on sample inputs *)





Example worker_mention :
  Worker.targetUrl
    (<["category" := Js.Str "mention"]>
       (<["groupId" := Js.Str "g1"]> {["messageId" := Js.Str "m1"]}))
  = Js.Str "/groups/g1?message=m1".
Proof. vm_compute. reflexivity. Qed.

Example of_nat_10 : Js.of_nat 10 = "10".
Proof. reflexivity. Qed.

Example send_one :
  Service.sendNotification (envAt 12 quietBrowser)
    (request "t" None None None) Service.new
  = (true,
     {| batchQueue := [mkNotification (envAt 12 quietBrowser) (request "t" None None None)];
        batchTimer := true;
        notificationHistory := [mkNotification (envAt 12 quietBrowser) (request "t" None None None)];
        preferences := None |}, []).
Proof. vm_compute. reflexivity. Qed.

(** ** Click routing in the service worker *)

Lemma is_str_false (v : option Js.value) (c : string) :
  v ≠ Some (Js.Str c) → Js.is_str v c = false.
Proof.
  intros Hne. destruct v as [[| | |t|]|]; simpl; try reflexivity.
  destruct (String.eqb_spec t c) as [->|]; [contradiction | reflexivity].
Qed.

(** Without a truthy [url] the target is the one inferred from the category. *)
Lemma targetUrl_no_url (d : gmap string Js.value) :
  Js.truthy (d !! "url") = false →
  Worker.targetUrl d =
    if Js.is_str (d !! "category") Config.MESSAGE then
      if Js.truthy (d !! "groupId")
      then Js.Str ("/groups/" +:+ Js.template (d !! "groupId"))
      else if Js.truthy (d !! "chatId")
           then Js.Str ("/chat/" +:+ Js.template (d !! "chatId"))
           else Js.Str "/"
    else if Js.is_str (d !! "category") Config.GROUP_INVITE then
      Js.Str ("/groups/" +:+ Js.template (d !! "groupId"))
    else if Js.is_str (d !! "category") Config.MENTION then
      Js.Str ("/groups/" +:+ Js.template (d !! "groupId") +:+ "?message="
              +:+ Js.template (d !! "messageId"))
    else if Js.is_str (d !! "category") Config.SECURITY then
      Js.Str "/admin/security"
    else Js.Str "/notifications".
Proof.
  intros Hurl. unfold Worker.targetUrl.
  destruct (d !! "url") as [u|] eqn:E; [rewrite Hurl|]; reflexivity.
Qed.

(** C5, counterexample: a [message] notification with neither [groupId] nor
    [chatId] is sent by the worker to ["/"], the initial value of
    [targetUrl], not to ["/notifications"]; and the page-side handler has no
    [security] case, so it sends a security notification to
    ["/notifications"]. *)
Lemma C5_message_without_ids_goes_home :
  Worker.targetUrl {["category" := Js.Str "message"]} = Js.Str "/"
  ∧ Worker.targetUrl {["category" := Js.Str "message"]} ≠ Js.Str "/notifications"
  ∧ Service.handleNotificationClick "security" ∅ = Some "/notifications".
Proof. vm_compute. repeat split; congruence. Qed.

(** C5 (amended): in the service worker's click handler, for a payload
    without a truthy [url], [message] with a truthy [groupId] gives
    [/groups/{groupId}], [message] with a truthy [chatId] and no truthy
    [groupId] gives [/chat/{chatId}], [message] with neither gives ["/"],
    [group_invite] gives [/groups/{groupId}], [mention] gives
    [/groups/{groupId}?message={messageId}], [security] gives
    ["/admin/security"], and every other category gives ["/notifications"]. *)
Theorem C5_worker_routing (d : gmap string Js.value) :
  Js.truthy (d !! "url") = false →
  let category := d !! "category" in
  let groupId := d !! "groupId" in
  let chatId := d !! "chatId" in
  let messageId := d !! "messageId" in
  (category = Some (Js.Str "message") → Js.truthy groupId = true →
     Worker.targetUrl d = Js.Str ("/groups/" +:+ Js.template groupId))
  ∧ (category = Some (Js.Str "message") → Js.truthy groupId = false →
     Js.truthy chatId = true →
     Worker.targetUrl d = Js.Str ("/chat/" +:+ Js.template chatId))
  ∧ (category = Some (Js.Str "message") → Js.truthy groupId = false →
     Js.truthy chatId = false →
     Worker.targetUrl d = Js.Str "/")
  ∧ (category = Some (Js.Str "group_invite") →
     Worker.targetUrl d = Js.Str ("/groups/" +:+ Js.template groupId))
  ∧ (category = Some (Js.Str "mention") →
     Worker.targetUrl d =
       Js.Str ("/groups/" +:+ Js.template groupId +:+ "?message="
               +:+ Js.template messageId))
  ∧ (category = Some (Js.Str "security") →
     Worker.targetUrl d = Js.Str "/admin/security")
  ∧ (category ≠ Some (Js.Str "message") →
     category ≠ Some (Js.Str "group_invite") →
     category ≠ Some (Js.Str "mention") →
     category ≠ Some (Js.Str "security") →
     Worker.targetUrl d = Js.Str "/notifications").
Proof.
  intros Hurl category groupId chatId messageId.
  rewrite (targetUrl_no_url d Hurl).
  unfold Config.MESSAGE, Config.GROUP_INVITE, Config.MENTION, Config.SECURITY.
  fold category groupId chatId messageId.
  repeat split.
  - intros -> ->. reflexivity.
  - intros -> -> ->. reflexivity.
  - intros -> -> ->. reflexivity.
  - intros ->. reflexivity.
  - intros ->. reflexivity.
  - intros ->. reflexivity.
  - intros H1 H2 H3 H4.
    rewrite (is_str_false _ _ H1), (is_str_false _ _ H2),
            (is_str_false _ _ H3), (is_str_false _ _ H4).
    reflexivity.
Qed.

(** The routing table at a [mention] payload and at a [system] payload. *)
Lemma C5_worker_routing_witness :
  Worker.targetUrl
    (<["category" := Js.Str "mention"]>
       (<["groupId" := Js.Str "g1"]> {["messageId" := Js.Str "m1"]}))
  = Js.Str "/groups/g1?message=m1"
  ∧ Worker.targetUrl {["category" := Js.Str "system"]} = Js.Str "/notifications".
Proof.
  split.
  - refine (proj1 (proj2 (proj2 (proj2 (proj2
      (C5_worker_routing
         (<["category" := Js.Str "mention"]>
            (<["groupId" := Js.Str "g1"]> {["messageId" := Js.Str "m1"]}))
         _))))) _); vm_compute; reflexivity.
  - refine (proj2 (proj2 (proj2 (proj2 (proj2 (proj2
      (C5_worker_routing {["category" := Js.Str "system"]} _))))))
      _ _ _ _); vm_compute; congruence.
Defined.

(** C6, counterexample: a payload whose [url] property is the empty string
    contains a [url] field, yet [if (url)] fails and the category decides;
    and the page-side handler never reads [url]. *)
Lemma C6_empty_url_not_returned :
  ({["url" := Js.Str ""; "category" := Js.Str "system"]} : gmap string Js.value)
     !! "url" = Some (Js.Str "")
  ∧ Worker.targetUrl {["url" := Js.Str ""; "category" := Js.Str "system"]}
    = Js.Str "/notifications"
  ∧ Service.handleNotificationClick "system" {["url" := Js.Str "/custom"]}
    = Some "/notifications".
Proof. vm_compute. repeat split. Qed.

(** C6 (amended): in the service worker's click handler, for every category
    and every payload whose [url] property is truthy (for a string: not
    empty), the target is that [url], verbatim. *)
Theorem C6_worker_url_override (d : gmap string Js.value) (u : Js.value) :
  d !! "url" = Some u →
  Js.truthy (Some u) = true →
  Worker.targetUrl d = u.
Proof.
  intros Hu Ht. unfold Worker.targetUrl. rewrite Hu, Ht. reflexivity.
Qed.

(** The override at a [security] payload that carries a [url]. *)
Lemma C6_worker_url_override_witness :
  Worker.targetUrl {["url" := Js.Str "/custom"; "category" := Js.Str "security"]}
  = Js.Str "/custom".
Proof.
  apply (C6_worker_url_override
           {["url" := Js.Str "/custom"; "category" := Js.Str "security"]}
           (Js.Str "/custom")); vm_compute; reflexivity.
Defined.

(** ** Actions shown by the service worker *)



Example push_three_actions :
  (λ x, Worker.actions x.2) <$>
    Worker.handlePushNotification 5 5 (pushWith None (Some threeActions))
  = Some (take 2 threeActions).
Proof. reflexivity. Qed.

(** C10: whatever the push payload, [handlePushNotification] shows a
    notification whose actions are the first two of the payload's [actions]
    (none when the property is absent), hence at most two. *)
Theorem C10_at_most_two_actions (t_data t_tag : Z) (p : Worker.PushData) :
  ∃ (t : option string) (o : Worker.Options),
    Worker.handlePushNotification t_data t_tag p = Some (t, o)
    ∧ Worker.actions o = take 2 (default [] (Worker.p_actions p))
    ∧ (length (Worker.actions o) ≤ 2)%nat.
Proof.
  unfold Worker.handlePushNotification. simpl.
  eexists _, _. split; [reflexivity|]. simpl. split; [reflexivity|].
  rewrite length_take. lia.
Qed.

(** ** The preference gate *)

Section Preference.

Context (s : State) (p : Preferences).
Hypothesis Hprefs : preferences s = Some p.

Lemma isDoNotDisturbTime_schedule (st en h : Z) :
  doNotDisturbSchedule p = Some {| start := st; stop := en |} →
  isDoNotDisturbTime s h =
    if (st <=? en)%Z then (h >=? st)%Z && (h <? en)%Z
    else (h >=? st)%Z || (h <? en)%Z.
Proof.
  intros Hs. unfold isDoNotDisturbTime. rewrite Hprefs, Hs. reflexivity.
Qed.

Lemma shouldSend_enabled (h : Z) (c pr : string) (uid : option string) :
  categoryBlocked p c = false →
  shouldSendNotification s h c pr uid =
    if doNotDisturb p && isDoNotDisturbTime s h
    then String.eqb pr Config.HIGH else true.
Proof.
  intros Hc. unfold shouldSendNotification. rewrite Hprefs, Hc. reflexivity.
Qed.

Lemma shouldSend_blocked (h : Z) (c pr : string) (uid : option string) :
  categoryBlocked p c = true →
  shouldSendNotification s h c pr uid = false.
Proof.
  intros Hc. unfold shouldSendNotification. rewrite Hprefs, Hc. reflexivity.
Qed.

End Preference.

(** C3: with do-not-disturb on and the window 22 to 8, a category that the
    preferences do not disable is suppressed at hour 23 at normal priority,
    allowed at hour 23 at high priority, and allowed at hour 12 at every
    priority; and for every schedule the window test is
    [start <= end ? (hour >= start && hour < end) : (hour >= start || hour < end)]. *)
Theorem C3_dnd_wraparound (s : State) (p : Preferences) (c : string)
    (uid : option string) :
  preferences s = Some p →
  doNotDisturb p = true →
  doNotDisturbSchedule p = Some {| start := 22; stop := 8 |} →
  categoryBlocked p c = false →
  shouldSendNotification s 23 c Config.NORMAL uid = false
  ∧ shouldSendNotification s 23 c Config.HIGH uid = true
  ∧ (∀ pr : string, shouldSendNotification s 12 c pr uid = true)
  ∧ (∀ (s' : State) (p' : Preferences) (st en h : Z),
       preferences s' = Some p' →
       doNotDisturbSchedule p' = Some {| start := st; stop := en |} →
       isDoNotDisturbTime s' h =
         if (st <=? en)%Z then (h >=? st)%Z && (h <? en)%Z
         else (h >=? st)%Z || (h <? en)%Z).
Proof.
  intros Hp Hd Hs Hc.
  split; [|split; [|split]].
  - rewrite (shouldSend_enabled s p Hp _ _ _ _ Hc), Hd,
            (isDoNotDisturbTime_schedule s p Hp 22 8 23 Hs).
    reflexivity.
  - rewrite (shouldSend_enabled s p Hp _ _ _ _ Hc), Hd,
            (isDoNotDisturbTime_schedule s p Hp 22 8 23 Hs).
    reflexivity.
  - intros pr.
    rewrite (shouldSend_enabled s p Hp _ _ _ _ Hc), Hd,
            (isDoNotDisturbTime_schedule s p Hp 22 8 12 Hs).
    reflexivity.
  - intros s' p' st en h Hp' Hs'.
    exact (isDoNotDisturbTime_schedule s' p' Hp' st en h Hs').
Qed.

(** The loaded preferences with do-not-disturb switched on, at 23h and 12h. *)
Lemma C3_dnd_wraparound_witness :
  shouldSendNotification nightState 23 "message" "normal" None = false
  ∧ shouldSendNotification nightState 23 "message" "high" None = true
  ∧ shouldSendNotification nightState 12 "message" "low" None = true.
Proof.
  pose proof (C3_dnd_wraparound nightState nightPreferences "message" None
                eq_refl eq_refl eq_refl eq_refl) as (H1 & H2 & H3 & _).
  exact (conj H1 (conj H2 (H3 "low"))).
Defined.

(** The disabled-category case, which the do-not-disturb rule never
    reaches. *)
Lemma shouldSend_disabled_category_high (s : State) (p : Preferences)
    (h : Z) (c : string) (uid : option string) :
  preferences s = Some p →
  categoryBlocked p c = true →
  shouldSendNotification s h c Config.HIGH uid = false.
Proof. intros Hp. apply (shouldSend_blocked s p Hp). Qed.

(** ** Flushing *)

Lemma processBatch_empty (b : Browser) (s : State) :
  batchQueue s = [] → processBatch b s = (s, []).
Proof. intros H. unfold processBatch. rewrite H. reflexivity. Qed.

Lemma processBatch_drains (b : Browser) (s : State) :
  batchQueue (processBatch b s).1 = [].
Proof.
  unfold processBatch. destruct (batchQueue s) eqn:E; simpl; [exact E | reflexivity].
Qed.

(** C9: flushing an empty queue delivers nothing and leaves the state as it
    was; a flush leaves the queue empty, so a flush that follows a flush
    delivers nothing. *)
Theorem C9_flush_idempotent (b b' : Browser) (s : State) :
  (batchQueue s = [] → processBatch b s = (s, []))
  ∧ processBatch b' (processBatch b s).1 = ((processBatch b s).1, []).
Proof.
  split.
  - apply processBatch_empty.
  - apply processBatch_empty, processBatch_drains.
Qed.

(** Flushing a fresh service, and flushing twice after three queued calls. *)
Lemma C9_flush_idempotent_witness :
  processBatch quietBrowser Service.new = (Service.new, [])
  ∧ processBatch quietBrowser
      (processBatch fallbackBrowser (run threeCalls Service.new).1).1
    = ((processBatch fallbackBrowser (run threeCalls Service.new).1).1, []).
Proof.
  split.
  - apply (proj1 (C9_flush_idempotent quietBrowser quietBrowser Service.new)).
    reflexivity.
  - apply (proj2 (C9_flush_idempotent fallbackBrowser quietBrowser
                    (run threeCalls Service.new).1)).
Defined.

(** ** The dispatcher, case by case *)


Lemma sendNotification_suppressed (e : Env) (r : Request) (s : State) :
  accepts e r s = false →
  sendNotification e r s = (false, s, []).
Proof.
  unfold accepts, sendNotification. intros ->. reflexivity.
Qed.

Lemma sendNotification_immediate (e : Env) (r : Request) (s : State) :
  accepts e r s = true →
  priorityOf r = Config.HIGH →
  sendNotification e r s =
    let d := deliver (browser e) (Single (mkNotification e r)) in
    if decide (outcome d = Threw) then (false, s, [d])
    else (true, pushHistory (mkNotification e r) s, [d]).
Proof.
  unfold accepts, sendNotification. intros -> ->. reflexivity.
Qed.

Lemma sendNotification_batched (e : Env) (r : Request) (s : State) :
  accepts e r s = true →
  priorityOf r ≠ Config.HIGH →
  sendNotification e r s =
    (true,
     pushHistory (mkNotification e r)
       (addToBatch (browser e) (mkNotification e r) s).1,
     (addToBatch (browser e) (mkNotification e r) s).2).
Proof.
  unfold accepts, sendNotification. intros -> Hp. simpl.
  apply String.eqb_neq in Hp. rewrite Hp.
  destruct (addToBatch _ _ _). reflexivity.
Qed.

Lemma processBatch_history (b : Browser) (s : State) :
  notificationHistory (processBatch b s).1 = notificationHistory s.
Proof. unfold processBatch. destruct (batchQueue s); reflexivity. Qed.

Lemma processBatch_preferences (b : Browser) (s : State) :
  preferences (processBatch b s).1 = preferences s.
Proof. unfold processBatch. destruct (batchQueue s); reflexivity. Qed.

Lemma addToBatch_history (b : Browser) (n : Notification) (s : State) :
  notificationHistory (addToBatch b n s).1 = notificationHistory s.
Proof.
  unfold addToBatch. simpl.
  destruct (batchTimer s); simpl;
    match goal with |- context [if ?c then _ else _] => destruct c end;
    simpl; try reflexivity;
    rewrite processBatch_history; reflexivity.
Qed.

Lemma addToBatch_preferences (b : Browser) (n : Notification) (s : State) :
  preferences (addToBatch b n s).1 = preferences s.
Proof.
  unfold addToBatch. simpl.
  destruct (batchTimer s); simpl;
    match goal with |- context [if ?c then _ else _] => destruct c end;
    simpl; try reflexivity;
    rewrite processBatch_preferences; reflexivity.
Qed.

(** Below the threshold the notification joins the queue and the timer is
    armed; nothing is delivered. *)
Lemma addToBatch_below (b : Browser) (n : Notification) (s : State) :
  (S (length (batchQueue s)) < Config.BATCH_SIZE)%nat →
  addToBatch b n s =
    ({| batchQueue := batchQueue s ++ [n]; batchTimer := true;
        notificationHistory := notificationHistory s;
        preferences := preferences s |}, []).
Proof.
  intros Hlen. unfold addToBatch. cbv zeta.
  assert ((Config.BATCH_SIZE <=? length (batchQueue s ++ [n]))%nat = false) as Hb.
  { apply Nat.leb_gt. rewrite length_app. simpl. lia. }
  destruct (batchTimer s); cbn [batchQueue batchTimer notificationHistory preferences];
    rewrite Hb; reflexivity.
Qed.

(** At the threshold the whole queue is flushed and the timer is cleared. *)
Lemma addToBatch_full (b : Browser) (n : Notification) (s : State) :
  (Config.BATCH_SIZE <= S (length (batchQueue s)))%nat →
  addToBatch b n s =
    ({| batchQueue := []; batchTimer := false;
        notificationHistory := notificationHistory s;
        preferences := preferences s |},
     sendGroups b (groupNotifications (batchQueue s ++ [n]))).
Proof.
  intros Hlen. unfold addToBatch. cbv zeta.
  assert ((Config.BATCH_SIZE <=? length (batchQueue s ++ [n]))%nat = true) as Hb.
  { apply Nat.leb_le. rewrite length_app. simpl. lia. }
  destruct (batchTimer s); cbn [batchQueue batchTimer notificationHistory preferences];
    rewrite Hb; unfold processBatch;
    cbn [batchQueue batchTimer notificationHistory preferences];
    destruct (batchQueue s ++ [n]) eqn:E; try reflexivity;
    destruct (batchQueue s); discriminate.
Qed.

Lemma shouldSend_preferences (s s' : State) (h : Z) (c pr : string)
    (uid : option string) :
  preferences s' = preferences s →
  shouldSendNotification s' h c pr uid = shouldSendNotification s h c pr uid.
Proof.
  intros H. unfold shouldSendNotification, isDoNotDisturbTime. rewrite H.
  reflexivity.
Qed.

(** The three ways a call can go: shown at once, queued, suppressed. *)
Ltac send_cases e r s :=
  let Ha := fresh "Ha" in
  let Hp := fresh "Hp" in
  destruct (accepts e r s) eqn:Ha;
  [ destruct (String.eqb_spec (priorityOf r) Config.HIGH) as [Hp|Hp];
    [ rewrite (sendNotification_immediate e r s Ha Hp)
    | rewrite (sendNotification_batched e r s Ha Hp) ]
  | rewrite (sendNotification_suppressed e r s Ha) ].

Lemma sendNotification_preferences (e : Env) (r : Request) (s : State) :
  preferences (sendNotification e r s).1.2 = preferences s.
Proof.
  send_cases e r s; simpl.
  - case_decide; reflexivity.
  - apply addToBatch_preferences.
  - reflexivity.
Qed.

(** Every call either appends its notification to the history (when it
    returns [true]) or leaves the history alone. *)
Lemma sendNotification_history (e : Env) (r : Request) (s : State) :
  notificationHistory (sendNotification e r s).1.2 =
    if (sendNotification e r s).1.1
    then notificationHistory s ++ [mkNotification e r]
    else notificationHistory s.
Proof.
  send_cases e r s; simpl.
  - case_decide; reflexivity.
  - rewrite addToBatch_history. reflexivity.
  - reflexivity.
Qed.

Lemma run_cons_state (e : Env) (r : Request) (rest : list (Env * Request))
    (s : State) :
  (run ((e, r) :: rest) s).1 = (run rest (sendNotification e r s).1.2).1.
Proof.
  simpl. destruct (sendNotification e r s) as [[ok s1] ds]. simpl.
  destruct (run rest s1). reflexivity.
Qed.

Lemma run_cons_outputs (e : Env) (r : Request) (rest : list (Env * Request))
    (s : State) :
  (run ((e, r) :: rest) s).2 =
    ((sendNotification e r s).1.1, (sendNotification e r s).2)
      :: (run rest (sendNotification e r s).1.2).2.
Proof.
  simpl. destruct (sendNotification e r s) as [[ok s1] ds]. simpl.
  destruct (run rest s1). reflexivity.
Qed.

Lemma accepts_no_preferences (e : Env) (r : Request) (s : State) :
  preferences s = None → accepts e r s = true.
Proof. intros H. unfold accepts, shouldSendNotification. rewrite H. reflexivity. Qed.

(** ** Category validation *)

Lemma defaultPreferences_only_six (c : string) :
  default ∅ (categories defaultPreferences) !! c = Some true →
  c ∈ Config.CATEGORIES.
Proof.
  unfold defaultPreferences, Config.CATEGORIES. simpl.
  rewrite !lookup_insert, lookup_singleton.
  repeat case_decide; subst; intros Hlookup; try discriminate;
    repeat (first [apply list_elem_of_here | apply list_elem_of_further]).
Qed.


(** Under the loaded preferences a category that is the name of an
    inherited property passes the category check. *)
Example constructor_category_accepted :
  ("constructor" ∉ Config.CATEGORIES)
  ∧ (sendNotification (envAt 12 quietBrowser)
       (request "t" (Some "constructor") None None)
       (loadPreferences Service.new)).1.1 = true.
Proof.
  split; [apply (bool_decide_unpack _) |]; vm_compute; reflexivity.
Qed.



(** ** The history *)

Lemma run_history_length (calls : list (Env * Request)) (s : State) :
  preferences s = None →
  Forall (λ c, priorityOf c.2 ≠ Config.HIGH) calls →
  length (notificationHistory (run calls s).1)
  = (length (notificationHistory s) + length calls)%nat.
Proof.
  revert s. induction calls as [|[e r] rest IH]; intros s Hp Hall.
  - simpl. lia.
  - apply Forall_cons in Hall as [Hr Hrest]. simpl in Hr.
    rewrite run_cons_state.
    rewrite IH; [| rewrite sendNotification_preferences; exact Hp | exact Hrest].
    rewrite sendNotification_history.
    rewrite (sendNotification_batched e r s (accepts_no_preferences e r s Hp) Hr).
    simpl. rewrite length_app. simpl. lia.
Qed.

Lemma slice_from_negative {A} (k : Z) (l : list A) :
  (0 < k)%Z →
  Js.slice_from (- k) l = drop (length l - Z.to_nat k) l.
Proof.
  intros Hk. unfold Js.slice_from.
  assert ((- k <? 0)%Z = true) as -> by (apply Z.ltb_lt; lia).
  f_equal. lia.
Qed.

(** C8, counterexample: no bound holds; from a fresh service, [N + 1]
    accepted calls leave [N + 1] records in the history. *)
Lemma C8_history_not_bounded :
  ¬ ∃ bound : nat, ∀ calls : list (Env * Request),
      (length (notificationHistory (run calls Service.new).1) ≤ bound)%nat.
Proof.
  intros [bound Hb].
  specialize (Hb (replicate (S bound)
                    (envAt 12 quietBrowser, request "t" None None None))).
  rewrite run_history_length in Hb.
  - rewrite length_replicate in Hb. simpl in Hb. lia.
  - reflexivity.
  - apply Forall_replicate. simpl. discriminate.
Qed.

(** C8 (amended): the history itself is not capped: a call that returns
    [true] appends its record and a call that returns [false] leaves the
    history alone, so the length grows by one with every accepted call. The
    bound is applied on reading only: [getNotificationHistory(limit)] with a
    positive [limit] returns the last [limit] records (all of them when
    there are fewer), and 50 records at most by default. *)
Theorem C8_history_grows_read_is_bounded (e : Env) (r : Request) (s : State)
    (limit : Z) :
  notificationHistory (sendNotification e r s).1.2
  = (if (sendNotification e r s).1.1
     then notificationHistory s ++ [mkNotification e r]
     else notificationHistory s)
  ∧ ((0 < limit)%Z →
     getNotificationHistory (Some limit) s
     = drop (length (notificationHistory s) - Z.to_nat limit)
         (notificationHistory s)
     ∧ (length (getNotificationHistory (Some limit) s) ≤ Z.to_nat limit)%nat)
  ∧ (length (getNotificationHistory None s) ≤ 50)%nat.
Proof.
  split; [apply sendNotification_history|]. split.
  - intros Hl. unfold getNotificationHistory. simpl.
    rewrite (slice_from_negative _ _ Hl). split; [reflexivity|].
    rewrite length_drop. lia.
  - unfold getNotificationHistory. simpl.
    rewrite (slice_from_negative 50) by lia.
    rewrite length_drop. lia.
Qed.


(** Reading two records out of a history of three. *)
Lemma C8_history_grows_read_is_bounded_witness :
  getNotificationHistory (Some 2%Z) (run threeCalls Service.new).1
  = drop 1 (notificationHistory (run threeCalls Service.new).1)
  ∧ (length (getNotificationHistory (Some 2%Z) (run threeCalls Service.new).1)
     ≤ 2)%nat.
Proof.
  refine (proj1 (proj2 (C8_history_grows_read_is_bounded
                          (envAt 9 quietBrowser) (request "a" None None None)
                          (run threeCalls Service.new).1 2%Z)) _).
  reflexivity.
Defined.

(** ** The [renotify] flag *)

(** C4, counterexample: without an active worker the notification is shown
    with the options built by [sendNotification], whose [renotify] is
    [priority === 'high']: a high-priority [message] notification appears
    with [renotify = true]. *)
Lemma C4_high_message_renotifies_on_fallback :
  let e := envAt 12 fallbackBrowser in
  let r := request "t" (Some "message") (Some "high") None in
  let n := mkNotification e r in
  let d := {| delivered := Single n; outcome := ShownDirectly |} in
  sendNotification e r Service.new = (true, pushHistory n Service.new, [d])
  ∧ category n = "message"
  ∧ shownRenotify 0 0 d = Some true.
Proof. vm_compute. repeat split. Qed.

(** C4 (amended): a single notification shown by the service worker has
    [renotify = true] exactly when its category is [security]; shown by the
    direct fallback it carries the options of [sendNotification], where
    [renotify = true] exactly when the priority is [high]. A high-priority
    security notification has [renotify = true] on both paths. *)
Theorem C4_renotify_by_path (e : Env) (r : Request) (t_data t_tag : Z) :
  let n := mkNotification e r in
  shownRenotify t_data t_tag {| delivered := Single n; outcome := PostedToWorker |}
  = Some (String.eqb (categoryOf r) Config.SECURITY)
  ∧ shownRenotify t_data t_tag {| delivered := Single n; outcome := ShownDirectly |}
    = Some (String.eqb (priorityOf r) Config.HIGH)
  ∧ (categoryOf r = Config.SECURITY → priorityOf r = Config.HIGH →
     ∀ o : Outcome, o = PostedToWorker ∨ o = ShownDirectly →
       shownRenotify t_data t_tag {| delivered := Single n; outcome := o |}
       = Some true).
Proof.
  intros n. split; [reflexivity|]. split; [reflexivity|].
  intros Hc Hp o [-> | ->]; unfold shownRenotify; simpl.
  - fold (categoryOf r). rewrite Hc. reflexivity.
  - rewrite Hp. reflexivity.
Qed.

(** A high-priority security alert re-alerts on both paths. *)
Lemma C4_renotify_by_path_witness :
  let n := mkNotification (envAt 12 quietBrowser)
             (request "alert" (Some "security") (Some "high") None) in
  shownRenotify 7 7 {| delivered := Single n; outcome := PostedToWorker |}
  = Some true
  ∧ shownRenotify 7 7 {| delivered := Single n; outcome := ShownDirectly |}
    = Some true.
Proof.
  intros n.
  pose proof (proj2 (proj2 (C4_renotify_by_path (envAt 12 quietBrowser)
                (request "alert" (Some "security") (Some "high") None) 7 7))
                eq_refl eq_refl) as H.
  exact (conj (H PostedToWorker (or_introl eq_refl))
              (H ShownDirectly (or_intror eq_refl))).
Defined.

(** ** Batching *)


(** While the queue stays below the threshold, accepted requests that are
    not of high priority are queued in order and nothing is delivered. *)
Lemma run_enqueues (calls : list (Env * Request)) (s0 s : State) :
  preferences s = preferences s0 →
  Forall (λ c, priorityOf c.2 ≠ Config.HIGH ∧ accepts c.1 c.2 s0 = true) calls →
  (length (batchQueue s) + length calls < Config.BATCH_SIZE)%nat →
  (run calls s).2 = replicate (length calls) (true, [])
  ∧ batchQueue (run calls s).1 = batchQueue s ++ mkAll calls
  ∧ notificationHistory (run calls s).1 = notificationHistory s ++ mkAll calls
  ∧ preferences (run calls s).1 = preferences s0.
Proof.
  revert s. induction calls as [|[e r] rest IH]; intros s Hp Hall Hlen.
  - simpl. rewrite !app_nil_r. auto.
  - apply Forall_cons in Hall as [[Hr Ha] Hrest]. simpl in Hr, Ha, Hlen.
    assert (accepts e r s = true) as Ha'.
    { unfold accepts in *. rewrite (shouldSend_preferences s0 s) by exact Hp.
      exact Ha. }
    assert (S (length (batchQueue s)) < Config.BATCH_SIZE)%nat as Hs by lia.
    rewrite run_cons_state, run_cons_outputs.
    rewrite (sendNotification_batched e r s Ha' Hr).
    rewrite (addToBatch_below _ _ _ Hs).
    unfold pushHistory.
    cbn [fst snd batchQueue batchTimer notificationHistory preferences].
    match goal with
    | |- context [run rest ?s1] =>
        destruct (IH s1) as (Ho & Hq & Hh & Hpr);
          [exact Hp | exact Hrest
          | cbn [batchQueue]; rewrite length_app; simpl; lia |]
    end.
    rewrite Ho, Hq, Hh, Hpr.
    cbn [batchQueue notificationHistory].
    unfold mkAll. simpl. rewrite <- !app_assoc. auto.
Qed.

Lemma fold_groupInsert_same (l acc : list Notification) (c : string) :
  Forall (λ n, category n = c) l →
  fold_left (λ grouped n, groupInsert n grouped) l [(c, acc)] = [(c, acc ++ l)].
Proof.
  revert acc. induction l as [|n l IH]; intros acc Hall.
  - simpl. rewrite app_nil_r. reflexivity.
  - apply Forall_cons in Hall as [Hn Hl]. simpl.
    rewrite Hn, String.eqb_refl, (IH _ Hl), <- app_assoc. reflexivity.
Qed.

(** A batch of one category forms one group, in queue order. *)
Lemma groupNotifications_same (n : Notification) (l : list Notification)
    (c : string) :
  Forall (λ x, category x = c) (n :: l) →
  groupNotifications (n :: l) = [(c, n :: l)].
Proof.
  intros Hall. apply Forall_cons in Hall as [Hn Hl].
  unfold groupNotifications. simpl. rewrite Hn.
  apply (fold_groupInsert_same l [n] c Hl).
Qed.

Lemma sendGroups_one (b : Browser) (c : string) (ns : list Notification) :
  sendGroups b [(c, ns)] = [sendGroupedNotification b c ns].
Proof. simpl. case_decide; reflexivity. Qed.

Lemma sendGroupedNotification_many (b : Browser) (c : string)
    (ns : list Notification) :
  (2 <= length ns)%nat →
  sendGroupedNotification b c ns = deliver b (Grouped (mkSummary c ns)).
Proof.
  intros Hlen. destruct ns as [|x [|y ns]]; simpl in Hlen; try lia.
  reflexivity.
Qed.

Lemma length_mkAll (calls : list (Env * Request)) :
  length (mkAll calls) = length calls.
Proof. unfold mkAll. apply length_map. Qed.

Lemma mkAll_category (calls : list (Env * Request)) (c : string) :
  Forall (λ x, categoryOf x.2 = c) calls →
  Forall (λ n, category n = c) (mkAll calls).
Proof.
  intros H. unfold mkAll. apply Forall_map.
  eapply Forall_impl; [exact H|]. intros [e r] Hc. exact Hc.
Qed.

(** C2: from an empty queue, nine accepted [message] requests of normal
    priority each return [true], deliver nothing and stay queued; the tenth
    flushes: the call hands exactly one notification to the sink, the
    summary of the ten, with body ["10 new message notifications"] and tag
    ["message_summary"], and leaves the queue empty and the timer cleared. *)
Theorem C2_tenth_message_flushes (s : State) (calls : list (Env * Request))
    (e : Env) (r : Request) :
  batchQueue s = [] →
  length calls = 9%nat →
  Forall (λ c, categoryOf c.2 = Config.MESSAGE
               ∧ priorityOf c.2 = Config.NORMAL
               ∧ accepts c.1 c.2 s = true) (calls ++ [(e, r)]) →
  let s9 := (run calls s).1 in
  let out := sendNotification e r s9 in
  (run calls s).2 = replicate 9 (true, [])
  ∧ batchQueue s9 = mkAll calls
  ∧ length (batchQueue s9) = 9%nat
  ∧ out.1.1 = true
  ∧ batchQueue out.1.2 = []
  ∧ batchTimer out.1.2 = false
  ∧ ∃ g : Summary,
      out.2 = [deliver (browser e) (Grouped g)]
      ∧ g = mkSummary Config.MESSAGE (mkAll (calls ++ [(e, r)]))
      ∧ s_body g = "10 new message notifications"
      ∧ so_body (s_options g) = "10 new message notifications"
      ∧ so_tag (s_options g) = "message_summary".
Proof.
  intros Hq Hlen Hall s9 out.
  apply Forall_app in Hall as [Hcalls Hlast].
  apply Forall_singleton in Hlast as (Hc & Hp & Ha). simpl in Hc, Hp, Ha.
  assert (Config.NORMAL ≠ Config.HIGH) as Hnh by discriminate.
  destruct (run_enqueues calls s s eq_refl) as (Ho & Hqueue & _ & Hprefs).
  { eapply Forall_impl; [exact Hcalls|].
    intros [e' r'] (_ & Hp' & Ha'). simpl in *. rewrite Hp'. auto. }
  { rewrite Hq, Hlen. simpl. unfold Config.BATCH_SIZE. lia. }
  rewrite Hq in Hqueue. simpl in Hqueue. fold s9 in Hqueue, Hprefs.
  assert (length (batchQueue s9) = 9%nat) as Hl9
    by (rewrite Hqueue, length_mkAll; exact Hlen).
  assert (accepts e r s9 = true) as Ha9.
  { unfold accepts in *. rewrite (shouldSend_preferences s s9) by exact Hprefs.
    exact Ha. }
  assert (priorityOf r ≠ Config.HIGH) as Hr by (rewrite Hp; exact Hnh).
  assert (sendNotification e r s9 =
            (true,
             pushHistory (mkNotification e r)
               {| batchQueue := []; batchTimer := false;
                  notificationHistory := notificationHistory s9;
                  preferences := preferences s9 |},
             sendGroups (browser e)
               (groupNotifications (batchQueue s9 ++ [mkNotification e r]))))
    as Hout.
  { rewrite (sendNotification_batched e r s9 Ha9 Hr).
    rewrite addToBatch_full; [reflexivity|].
    rewrite Hl9. unfold Config.BATCH_SIZE. lia. }
  assert (batchQueue s9 ++ [mkNotification e r] = mkAll (calls ++ [(e, r)]))
    as Hbatch.
  { rewrite Hqueue. unfold mkAll. rewrite map_app. reflexivity. }
  assert (length (mkAll (calls ++ [(e, r)])) = 10%nat) as Hl10.
  { rewrite length_mkAll, length_app, Hlen. reflexivity. }
  assert (Forall (λ n, category n = Config.MESSAGE) (mkAll (calls ++ [(e, r)])))
    as Hcat.
  { apply mkAll_category, Forall_app. split.
    - eapply Forall_impl; [exact Hcalls|]. intros x (Hx & _). exact Hx.
    - apply Forall_singleton. exact Hc. }
  rewrite Ho, Hlen. subst out. rewrite Hout, Hbatch.
  repeat (split; [first [reflexivity | assumption]|]).
  exists (mkSummary Config.MESSAGE (mkAll (calls ++ [(e, r)]))).
  split.
  - cbn [snd].
    destruct (mkAll (calls ++ [(e, r)])) as [|n0 l] eqn:E; [discriminate|].
    rewrite (groupNotifications_same n0 l Config.MESSAGE Hcat), sendGroups_one.
    f_equal. apply sendGroupedNotification_many. rewrite Hl10. lia.
  - split; [reflexivity|]. unfold mkSummary. cbn [s_body s_options so_body so_tag].
    rewrite Hl10. repeat split.
Qed.


(** Ten default requests on a fresh service. *)
Lemma C2_tenth_message_flushes_witness :
  (run nineCalls Service.new).2 = replicate 9 (true, [])
  ∧ ∃ g : Summary,
      (sendNotification (envAt 10 quietBrowser)
         (request "last" (Some "message") (Some "normal") None)
         (run nineCalls Service.new).1).2
      = [{| delivered := Grouped g; outcome := PostedToWorker |}]
      ∧ s_body g = "10 new message notifications"
      ∧ so_tag (s_options g) = "message_summary".
Proof.
  assert (Forall (λ c, categoryOf c.2 = Config.MESSAGE
                       ∧ priorityOf c.2 = Config.NORMAL
                       ∧ accepts c.1 c.2 Service.new = true)
            (nineCalls ++ [(envAt 10 quietBrowser,
                           request "last" (Some "message") (Some "normal") None)]))
    as Hall.
  { unfold nineCalls. simpl.
    repeat (apply Forall_cons; split; [repeat split|]). apply Forall_nil_2. }
  destruct (C2_tenth_message_flushes Service.new nineCalls
              (envAt 10 quietBrowser)
              (request "last" (Some "message") (Some "normal") None)
              eq_refl eq_refl Hall)
    as (Ho & _ & _ & _ & _ & _ & g & Hd & Hg & Hb & _ & Ht).
  split; [exact Ho|].
  exists g. split; [|split; [exact Hb | exact Ht]].
  rewrite Hd, Hg. reflexivity.
Defined.

(** * Beyond the claims *)

(** ** Grouping *)

Lemma groupNotifications_snoc (l : list Notification) (n : Notification) :
  groupNotifications (l ++ [n]) = groupInsert n (groupNotifications l).
Proof. unfold groupNotifications. rewrite fold_left_app. reflexivity. Qed.

Lemma groupInsert_keys (n : Notification)
    (g : list (string * list Notification)) :
  (category n ∈ g.*1 → (groupInsert n g).*1 = g.*1)
  ∧ (category n ∉ g.*1 → (groupInsert n g).*1 = g.*1 ++ [category n]).
Proof.
  induction g as [|[c ns] g [IHin IHout]].
  - split; [intros Hin; by apply elem_of_nil in Hin | reflexivity].
  - cbn [groupInsert].
    destruct (String.eqb_spec c (category n)) as [Heq|Hne].
    + split; [reflexivity|]. intros Hout. exfalso. apply Hout.
      rewrite fmap_cons. simpl. rewrite Heq. apply list_elem_of_here.
    + rewrite !fmap_cons. simpl. split.
      * intros [Heq|Hin]%elem_of_cons; [congruence|].
        rewrite (IHin Hin). reflexivity.
      * intros Hout. rewrite IHout; [reflexivity|].
        intros Hin. apply Hout. apply list_elem_of_further. exact Hin.
Qed.

Lemma groupInsert_concat (n : Notification)
    (g : list (string * list Notification)) :
  concat (groupInsert n g).*2 ≡ₚ concat g.*2 ++ [n].
Proof.
  induction g as [|[c ns] g IH]; simpl.
  - reflexivity.
  - destruct (String.eqb_spec c (category n)) as [->|Hne]; simpl.
    + rewrite <- !app_assoc. apply Permutation_app_head.
      apply Permutation_app_comm.
    + rewrite IH, app_assoc. reflexivity.
Qed.

Lemma groupInsert_members (l : list Notification) (n : Notification)
    (g : list (string * list Notification)) :
  NoDup g.*1 →
  Forall (λ cg, cg.2 = filter (λ x, category x = cg.1) l ∧ cg.2 ≠ []) g →
  category n ∈ g.*1 ∨ filter (λ x, category x = category n) l = [] →
  Forall (λ cg, cg.2 = filter (λ x, category x = cg.1) (l ++ [n]) ∧ cg.2 ≠ [])
    (groupInsert n g).
Proof.
  induction g as [|[c ns] g IH]; intros Hnd Hall Hin; simpl.
  - destruct Hin as [Hin|Hnil]; [by apply elem_of_nil in Hin|].
    apply Forall_singleton. simpl. split; [|discriminate].
    rewrite filter_app, Hnil, filter_cons_True by reflexivity. reflexivity.
  - simpl in Hnd. apply NoDup_cons in Hnd as [Hc Hnd].
    apply Forall_cons in Hall as [[Hns Hne] Hall]. simpl in Hns, Hne.
    destruct (String.eqb_spec c (category n)) as [->|Hcn].
    + apply Forall_cons. split.
      * simpl. split; [|by destruct ns].
        rewrite filter_app, <- Hns, filter_cons_True by reflexivity.
        reflexivity.
      * apply Forall_forall. intros [c' ns'] Hmem.
        rewrite Forall_forall in Hall. destruct (Hall _ Hmem) as [Hns' Hne'].
        simpl in *. split; [|exact Hne'].
        rewrite filter_app, <- Hns', filter_cons_False, filter_nil, app_nil_r;
          [reflexivity|].
        intros Heq. apply Hc. rewrite Heq.
        apply list_elem_of_fmap. exists (c', ns'). split; [reflexivity|exact Hmem].
    + apply Forall_cons. split.
      * simpl. split; [|exact Hne].
        rewrite filter_app, <- Hns, filter_cons_False, filter_nil, app_nil_r;
          [reflexivity|].
        intros Heq. apply Hcn. symmetry. exact Heq.
      * apply IH; [exact Hnd | exact Hall |].
        destruct Hin as [Hin|Hnil]; [left | right; exact Hnil].
        apply elem_of_cons in Hin as [Heq|Hin]; [|exact Hin].
        simpl in Heq. congruence.
Qed.

Lemma groupInsert_keys_grow (n : Notification)
    (g : list (string * list Notification)) (c : string) :
  c ∈ g.*1 ∨ c = category n → c ∈ (groupInsert n g).*1.
Proof.
  destruct (groupInsert_keys n g) as [Hin Hout].
  destruct (decide (category n ∈ g.*1)) as [Hd|Hd].
  - rewrite (Hin Hd). intros [Hc| ->]; assumption.
  - rewrite (Hout Hd). intros [Hc| ->]; apply elem_of_app;
      [left; exact Hc | right; apply list_elem_of_here].
Qed.

Lemma groupInsert_keys_NoDup (n : Notification)
    (g : list (string * list Notification)) :
  NoDup g.*1 → NoDup (groupInsert n g).*1.
Proof.
  intros Hnd. destruct (groupInsert_keys n g) as [Hin Hout].
  destruct (decide (category n ∈ g.*1)) as [Hd|Hd].
  - rewrite (Hin Hd). exact Hnd.
  - rewrite (Hout Hd). apply NoDup_app. split; [exact Hnd|]. split.
    + intros x Hx Hx'. apply list_elem_of_singleton in Hx'. subst x.
      contradiction.
    + apply NoDup_singleton.
Qed.

(** The result of [groupNotifications], characterised. *)
Lemma groupNotifications_spec (l : list Notification) :
  NoDup (groupNotifications l).*1
  ∧ Forall (λ cg, cg.2 = filter (λ x, category x = cg.1) l ∧ cg.2 ≠ [])
      (groupNotifications l)
  ∧ (∀ x, x ∈ l → category x ∈ (groupNotifications l).*1).
Proof.
  induction l as [|n l (Hnd & Hall & Hcov)] using rev_ind.
  - split; [apply NoDup_nil_2|]. split; [apply Forall_nil_2|].
    intros x Hx. by apply elem_of_nil in Hx.
  - rewrite groupNotifications_snoc. split; [|split].
    + apply groupInsert_keys_NoDup, Hnd.
    + apply groupInsert_members; [exact Hnd | exact Hall |].
      destruct (decide (category n ∈ (groupNotifications l).*1)) as [Hd|Hd];
        [left; exact Hd | right].
      destruct (filter (λ x, category x = category n) l) as [|x f] eqn:E;
        [reflexivity|].
      exfalso. apply Hd.
      assert (x ∈ filter (λ x, category x = category n) l) as Hx
        by (rewrite E; apply list_elem_of_here).
      apply list_elem_of_filter in Hx as [Hc Hx]. rewrite <- Hc.
      apply Hcov, Hx.
    + intros x [Hx|Hx]%elem_of_app; apply groupInsert_keys_grow.
      * left. apply Hcov, Hx.
      * right. apply list_elem_of_singleton in Hx. congruence.
Qed.

Lemma groupNotifications_concat (l : list Notification) :
  concat (groupNotifications l).*2 ≡ₚ l.
Proof.
  induction l as [|n l IH] using rev_ind; [reflexivity|].
  rewrite groupNotifications_snoc, groupInsert_concat, IH. reflexivity.
Qed.

Lemma groupNotifications_nonempty (l : list Notification) :
  l ≠ [] → groupNotifications l ≠ [].
Proof.
  intros Hl Hg. destruct l as [|n l]; [contradiction|].
  destruct (groupNotifications_spec (n :: l)) as (_ & _ & Hcov).
  specialize (Hcov n (list_elem_of_here _ _)). rewrite Hg in Hcov.
  by apply elem_of_nil in Hcov.
Qed.

(** X1: [groupNotifications] makes one group per category that occurs, never
    an empty one, and each group holds exactly the notifications of its
    category, in the order of the batch. *)
Theorem X1_groups_are_the_categories (l : list Notification) :
  NoDup (groupNotifications l).*1
  ∧ (∀ x, x ∈ l → category x ∈ (groupNotifications l).*1)
  ∧ (∀ c ns, (c, ns) ∈ groupNotifications l →
       ns = filter (λ x, category x = c) l ∧ ns ≠ []).
Proof.
  destruct (groupNotifications_spec l) as (Hnd & Hall & Hcov).
  split; [exact Hnd|]. split; [exact Hcov|].
  intros c ns Hin. rewrite Forall_forall in Hall. exact (Hall _ Hin).
Qed.

(** X2: grouping neither loses nor duplicates a notification: the groups
    together are a rearrangement of the batch. *)
Theorem X2_grouping_is_a_rearrangement (l : list Notification) :
  concat (groupNotifications l).*2 ≡ₚ l.
Proof. apply groupNotifications_concat. Qed.

(** ** Flushing, with and without a failing sink *)


Lemma sendImmediateNotification_throws (b : Browser) (o : Outgoing) :
  worker b ≠ WorkerActive → permission b = "granted" →
  constructor_throws b = true →
  sendImmediateNotification b o = Threw.
Proof.
  unfold sendImmediateNotification, showDirectNotification.
  intros Hw -> ->. destruct (worker b); [contradiction| |]; reflexivity.
Qed.




(** X4: when the sink throws, a flush still empties the queue but stops at
    the first group: one failed delivery is all there is, and the queued
    notifications of every category are gone without having been shown. *)
Theorem X4_failing_sink_drops_the_batch (b : Browser) (s : State) :
  worker b ≠ WorkerActive →
  permission b = "granted" →
  constructor_throws b = true →
  batchQueue s ≠ [] →
  batchQueue (processBatch b s).1 = []
  ∧ ∃ d, (processBatch b s).2 = [d] ∧ outcome d = Threw.
Proof.
  intros Hw Hp Hc Hq. split; [apply processBatch_drains|].
  unfold processBatch. destruct (batchQueue s) as [|n l] eqn:E; [contradiction|].
  cbn [snd].
  destruct (groupNotifications (n :: l)) as [|[c ns] g] eqn:Eg.
  - exfalso. exact (groupNotifications_nonempty (n :: l) ltac:(discriminate) Eg).
  - cbn [sendGroups].
    assert (outcome (sendGroupedNotification b c ns) = Threw) as Ht.
    { unfold sendGroupedNotification.
      destruct ns as [|x [|y ns]]; cbn [deliver outcome];
        apply sendImmediateNotification_throws; assumption. }
    rewrite decide_True by exact Ht. eexists. split; [reflexivity | exact Ht].
Qed.

(** One category of three queued notifications is lost with the other. *)
Lemma X4_failing_sink_drops_the_batch_witness :
  batchQueue (processBatch throwingBrowser (run threeCalls Service.new).1).1 = []
  ∧ ∃ d, (processBatch throwingBrowser (run threeCalls Service.new).1).2 = [d]
         ∧ outcome d = Threw.
Proof.
  apply (X4_failing_sink_drops_the_batch throwingBrowser
           (run threeCalls Service.new).1).
  - discriminate.
  - reflexivity.
  - reflexivity.
  - vm_compute. discriminate.
Defined.


(** ** The queue between events *)

Lemma processBatch_invariant (b : Browser) (s : State) :
  queueInvariant s → queueInvariant (processBatch b s).1.
Proof.
  intros Hinv. unfold processBatch. destruct (batchQueue s) eqn:E; [exact Hinv|].
  split; simpl; [split; [discriminate | contradiction]|].
  unfold Config.BATCH_SIZE. lia.
Qed.

Lemma addToBatch_invariant (b : Browser) (n : Notification) (s : State) :
  queueInvariant s → queueInvariant (addToBatch b n s).1.
Proof.
  intros [_ Hlen].
  destruct (decide (S (length (batchQueue s)) < Config.BATCH_SIZE)%nat) as [Hs|Hs].
  - rewrite (addToBatch_below b n s Hs). split; simpl.
    + split; [intros _ | reflexivity]. by destruct (batchQueue s).
    + rewrite length_app. simpl. lia.
  - rewrite (addToBatch_full b n s) by lia. split; simpl.
    + split; [discriminate | contradiction].
    + unfold Config.BATCH_SIZE. lia.
Qed.

Lemma step_invariant (ev : Event) (s : State) :
  queueInvariant s → queueInvariant (step ev s).1.
Proof.
  intros Hinv. destruct ev as [e r|b]; cbn [step fst].
  - send_cases e r s; cbn [fst snd].
    + case_decide; exact Hinv.
    + pose proof (addToBatch_invariant (browser e) (mkNotification e r) s Hinv)
        as Hi. exact Hi.
    + exact Hinv.
  - apply processBatch_invariant, Hinv.
Qed.

(** X5: over any sequence of calls and timer callbacks, started in a state
    where it holds (the fresh service is one), a timeout is stored exactly
    when the queue is not empty, and the queue stays shorter than
    [BATCH_SIZE]. *)
Theorem X5_timer_iff_queued (evs : list Event) (s : State) :
  queueInvariant s →
  queueInvariant (runEvents evs s).1.
Proof.
  revert s. induction evs as [|ev rest IH]; intros s Hinv; [exact Hinv|].
  cbn [runEvents]. pose proof (step_invariant ev s Hinv) as Hstep.
  destruct (step ev s) as [s1 ds1]. specialize (IH s1 Hstep).
  destruct (runEvents rest s1) as [s2 ds2]. exact IH.
Qed.

(** Twelve calls with a timer callback in between, from the fresh service. *)
Lemma X5_timer_iff_queued_witness :
  queueInvariant
    (runEvents
       (((λ c, Send c.1 c.2) <$> nineCalls)
        ++ [TimerFires quietBrowser]
        ++ ((λ c, Send c.1 c.2) <$> threeCalls))
       Service.new).1.
Proof.
  apply X5_timer_iff_queued.
  split; simpl; [split; [discriminate | contradiction]|].
  unfold Config.BATCH_SIZE. lia.
Defined.

(** ** History, priority and the timer *)

(** X6: after any sequence of calls that are awaited one after the other
    (each call has returned before the next is made, as [run] has it) the
    history has grown by the notifications of exactly the calls that
    returned [true], in call order; a call that returned [false] leaves no
    record. *)
Theorem X6_history_is_the_accepted_calls (calls : list (Env * Request))
    (s : State) :
  notificationHistory (run calls s).1
  = notificationHistory s ++ mkAll (acceptedCalls calls (run calls s).2).
Proof.
  revert s. induction calls as [|[e r] rest IH]; intros s.
  - simpl. rewrite app_nil_r. reflexivity.
  - rewrite run_cons_state, run_cons_outputs, IH, sendNotification_history.
    unfold acceptedCalls, mkAll. cbn [zip zip_with].
    destruct ((sendNotification e r s).1.1) eqn:Hok.
    + rewrite filter_cons_True by reflexivity.
      rewrite <- app_assoc. reflexivity.
    + rewrite filter_cons_False by discriminate.
      reflexivity.
Qed.

(** X7: a high-priority request whose category is not disabled is never
    queued, whatever the hour and the do-not-disturb setting: the call makes
    exactly one delivery, of that notification, leaves queue and timer as
    they were, and returns [true] unless the sink threw. *)
Theorem X7_high_priority_bypasses_queue_and_dnd (e : Env) (r : Request)
    (s : State) :
  priorityOf r = Config.HIGH →
  (∀ p, preferences s = Some p → categoryBlocked p (categoryOf r) = false) →
  (sendNotification e r s).2 = [deliver (browser e) (Single (mkNotification e r))]
  ∧ batchQueue (sendNotification e r s).1.2 = batchQueue s
  ∧ batchTimer (sendNotification e r s).1.2 = batchTimer s
  ∧ ((sendNotification e r s).1.1 = true ↔
     sendImmediateNotification (browser e) (Single (mkNotification e r)) ≠ Threw).
Proof.
  intros Hp Hcat.
  assert (accepts e r s = true) as Ha.
  { unfold accepts, shouldSendNotification.
    destruct (preferences s) as [p|] eqn:E; [|reflexivity].
    rewrite (Hcat p eq_refl), Hp.
    destruct (doNotDisturb p && isDoNotDisturbTime s (hour e)); reflexivity. }
  rewrite (sendNotification_immediate e r s Ha Hp). cbv zeta.
  case_decide as Hd; cbn [fst snd deliver outcome] in *.
  - repeat split; try reflexivity; [discriminate | contradiction].
  - repeat split; try reflexivity. intros _. exact Hd.
Qed.

(** A security alert at 23h under do-not-disturb, with two calls queued. *)
Lemma X7_high_priority_bypasses_queue_and_dnd_witness :
  (sendNotification (envAt 23 quietBrowser)
     (request "alert" (Some "security") (Some "high") None)
     busyNightState).1.1 = true
  ∧ batchQueue
      (sendNotification (envAt 23 quietBrowser)
         (request "alert" (Some "security") (Some "high") None)
         busyNightState).1.2
    = batchQueue busyNightState.
Proof.
  assert (∀ p, preferences busyNightState = Some p →
               categoryBlocked p
                 (categoryOf (request "alert" (Some "security") (Some "high") None))
               = false) as Hcat.
  { intros p Hp. vm_compute in Hp. injection Hp as <-. vm_compute. reflexivity. }
  destruct (X7_high_priority_bypasses_queue_and_dnd
              (envAt 23 quietBrowser)
              (request "alert" (Some "security") (Some "high") None)
              busyNightState eq_refl Hcat) as (_ & Hq & _ & Hok).
  split; [|exact Hq]. apply Hok. vm_compute. discriminate.
Defined.

Lemma run_enqueues_timer (calls : list (Env * Request)) (s0 s : State) :
  preferences s = preferences s0 →
  Forall (λ c, priorityOf c.2 ≠ Config.HIGH ∧ accepts c.1 c.2 s0 = true) calls →
  (length (batchQueue s) + length calls < Config.BATCH_SIZE)%nat →
  calls ≠ [] ∨ batchTimer s = true →
  batchTimer (run calls s).1 = true.
Proof.
  revert s. induction calls as [|[e r] rest IH]; intros s Hp Hall Hlen Hne.
  - destruct Hne as [Hne|Ht]; [contradiction | exact Ht].
  - apply Forall_cons in Hall as [[Hr Ha] Hrest]. simpl in Hr, Ha, Hlen.
    assert (accepts e r s = true) as Ha'.
    { unfold accepts in *. rewrite (shouldSend_preferences s0 s) by exact Hp.
      exact Ha. }
    assert (S (length (batchQueue s)) < Config.BATCH_SIZE)%nat as Hs by lia.
    rewrite run_cons_state, (sendNotification_batched e r s Ha' Hr),
            (addToBatch_below _ _ _ Hs).
    unfold pushHistory.
    cbn [fst snd batchQueue batchTimer notificationHistory preferences].
    apply IH; cbn [batchQueue batchTimer preferences];
      [exact Hp | exact Hrest | rewrite length_app; simpl; lia
      | right; reflexivity].
Qed.

(** X8: when fewer than [BATCH_SIZE] accepted requests below high priority
    have been queued from an empty queue, the timeout is pending, and its
    callback flushes exactly them: the queue is emptied, the timer cleared,
    and the groups of those notifications are delivered. If they all share a
    category and are at least two, the delivery is one summary that counts
    them. *)
Theorem X8_timer_flushes_what_was_queued (b : Browser)
    (calls : list (Env * Request)) (s : State) :
  batchQueue s = [] →
  calls ≠ [] →
  (length calls < Config.BATCH_SIZE)%nat →
  Forall (λ c, priorityOf c.2 ≠ Config.HIGH ∧ accepts c.1 c.2 s = true) calls →
  batchTimer (run calls s).1 = true
  ∧ batchQueue (onBatchTimer b (run calls s).1).1 = []
  ∧ batchTimer (onBatchTimer b (run calls s).1).1 = false
  ∧ (onBatchTimer b (run calls s).1).2
    = sendGroups b (groupNotifications (mkAll calls))
  ∧ (∀ c, Forall (λ x, categoryOf x.2 = c) calls → (2 <= length calls)%nat →
       (onBatchTimer b (run calls s).1).2
       = [deliver b (Grouped (mkSummary c (mkAll calls)))]
       ∧ s_body (mkSummary c (mkAll calls))
         = Js.of_nat (length calls) +:+ " new " +:+ c +:+ " notifications").
Proof.
  intros Hq Hne Hlen Hall.
  destruct (run_enqueues calls s s eq_refl Hall) as (_ & Hqueue & _ & _).
  { rewrite Hq. simpl. exact Hlen. }
  rewrite Hq in Hqueue. simpl in Hqueue.
  assert (batchTimer (run calls s).1 = true) as Ht.
  { apply (run_enqueues_timer calls s s eq_refl Hall).
    - rewrite Hq. simpl. exact Hlen.
    - left. exact Hne. }
  assert (mkAll calls ≠ []) as Hm.
  { intros Hnil. apply Hne. apply (f_equal length) in Hnil.
    rewrite length_mkAll in Hnil. by destruct calls. }
  assert (onBatchTimer b (run calls s).1
          = ({| batchQueue := []; batchTimer := false;
                notificationHistory := notificationHistory (run calls s).1;
                preferences := preferences (run calls s).1 |},
             sendGroups b (groupNotifications (mkAll calls)))) as Hflush.
  { unfold onBatchTimer, processBatch. rewrite Hqueue.
    destruct (mkAll calls); [contradiction | reflexivity]. }
  rewrite Hflush. cbn [fst snd batchQueue batchTimer].
  repeat (split; [first [reflexivity | assumption]|]).
  intros c Hc H2.
  pose proof (mkAll_category calls c Hc) as Hcat.
  destruct (mkAll calls) as [|n0 l] eqn:E; [contradiction|].
  rewrite (groupNotifications_same n0 l c Hcat), sendGroups_one.
  split.
  - f_equal. apply sendGroupedNotification_many.
    rewrite <- E, length_mkAll. exact H2.
  - unfold mkSummary. cbn [s_body]. rewrite <- E, length_mkAll. reflexivity.
Qed.

(** Three queued calls, then the timer: a [message] alone and a summary of
    the two [mention]s. *)
Lemma X8_timer_flushes_what_was_queued_witness :
  batchTimer (run threeCalls Service.new).1 = true
  ∧ (onBatchTimer quietBrowser (run threeCalls Service.new).1).2
    = sendGroups quietBrowser (groupNotifications (mkAll threeCalls)).
Proof.
  assert (Forall (λ c, priorityOf c.2 ≠ Config.HIGH
                       ∧ accepts c.1 c.2 Service.new = true) threeCalls)
    as Hall.
  { unfold threeCalls.
    repeat (apply Forall_cons; split; [split; [discriminate | reflexivity]|]).
    apply Forall_nil_2. }
  destruct (X8_timer_flushes_what_was_queued quietBrowser threeCalls
              Service.new eq_refl ltac:(discriminate)
              ltac:(unfold Config.BATCH_SIZE; simpl; lia) Hall)
    as (Ht & _ & _ & Hd & _).
  exact (conj Ht Hd).
Defined.

(** ** Updating the preferences *)

(** X9: an update that carries a [categories] object replaces the stored
    one whole: from then on a request is rejected when the new object lists
    its category as [false], or does not list it at all and the category is
    not the name of a property that every object inherits; what the earlier
    preferences allowed plays no part. *)
Theorem X9_categories_update_replaces (u : PreferencesUpdate)
    (m : gmap string bool) (e : Env) (r : Request) (s : State) :
  u_categories u = Some m →
  m !! categoryOf r ≠ Some true →
  (m !! categoryOf r = None → categoryOf r ∉ Js.objectPrototype) →
  sendNotification e r (updatePreferences u s).2
  = (false, (updatePreferences u s).2, []).
Proof.
  intros Hu Hm Hproto. apply sendNotification_suppressed. unfold accepts.
  eapply shouldSend_blocked; [reflexivity|].
  unfold categoryBlocked. cbn [categories]. rewrite Hu.
  destruct (m !! categoryOf r) as [[|]|]; [contradiction | reflexivity |].
  unfold Js.inherited. rewrite bool_decide_eq_false_2 by (apply Hproto; reflexivity).
  reflexivity.
Qed.

(** Switching off [message] alone switches off [security] too. *)
Lemma X9_categories_update_replaces_witness :
  sendNotification (envAt 12 quietBrowser)
    (request "alert" (Some "security") (Some "high") None)
    (updatePreferences
       {| u_categories := Some {["message" := false]};
          u_doNotDisturb := None; u_doNotDisturbSchedule := None |}
       (loadPreferences Service.new)).2
  = (false,
     (updatePreferences
        {| u_categories := Some {["message" := false]};
           u_doNotDisturb := None; u_doNotDisturbSchedule := None |}
        (loadPreferences Service.new)).2,
     []).
Proof.
  apply (X9_categories_update_replaces _ {["message" := false]}).
  - reflexivity.
  - vm_compute. discriminate.
  - intros _. apply (bool_decide_unpack _). vm_compute. reflexivity.
Defined.

(** X10: [updatePreferences] returns [true], touches neither queue, timer
    nor history, keeps the stored value of every key the update omits, and
    applying the same update twice is the same as applying it once. *)
Theorem X10_update_keeps_the_rest (u : PreferencesUpdate) (s : State) :
  (updatePreferences u s).1 = true
  ∧ batchQueue (updatePreferences u s).2 = batchQueue s
  ∧ batchTimer (updatePreferences u s).2 = batchTimer s
  ∧ notificationHistory (updatePreferences u s).2 = notificationHistory s
  ∧ (∀ p p', preferences s = Some p →
       preferences (updatePreferences u s).2 = Some p' →
       (u_categories u = None → categories p' = categories p)
       ∧ (u_doNotDisturb u = None → doNotDisturb p' = doNotDisturb p)
       ∧ (u_doNotDisturbSchedule u = None →
          doNotDisturbSchedule p' = doNotDisturbSchedule p))
  ∧ updatePreferences u (updatePreferences u s).2 = updatePreferences u s.
Proof.
  repeat (split; [reflexivity|]). split.
  - intros p p' Hp Hp'. unfold updatePreferences in Hp'.
    cbn [snd preferences] in Hp'. rewrite Hp in Hp'. cbn [default] in Hp'.
    injection Hp' as <-. cbn [categories doNotDisturb doNotDisturbSchedule].
    repeat split; intros ->; reflexivity.
  - unfold updatePreferences.
    cbn [snd batchQueue batchTimer notificationHistory preferences default
         categories doNotDisturb doNotDisturbSchedule].
    destruct (u_categories u), (u_doNotDisturb u), (u_doNotDisturbSchedule u);
      reflexivity.
Qed.

(** Switching do-not-disturb on keeps the loaded categories and schedule. *)
Lemma X10_update_keeps_the_rest_witness :
  categories nightPreferences = categories defaultPreferences
  ∧ doNotDisturbSchedule nightPreferences
    = doNotDisturbSchedule defaultPreferences.
Proof.
  destruct (X10_update_keeps_the_rest
              {| u_categories := None; u_doNotDisturb := Some true;
                 u_doNotDisturbSchedule := None |}
              (loadPreferences Service.new))
    as (_ & _ & _ & _ & Hkeep & _).
  destruct (Hkeep defaultPreferences nightPreferences eq_refl eq_refl)
    as (Hc & _ & Hs).
  exact (conj (Hc eq_refl) (Hs eq_refl)).
Defined.

(** X11: do-not-disturb switched on before any schedule is stored
    suppresses nothing: on a service whose preferences were never loaded, an
    update without [categories] and without a schedule leaves every request
    accepted, at every hour and priority. *)
Theorem X11_dnd_without_schedule_is_inert (u : PreferencesUpdate) (s : State)
    (e : Env) (r : Request) :
  preferences s = None →
  u_categories u = None →
  u_doNotDisturbSchedule u = None →
  accepts e r (updatePreferences u s).2 = true.
Proof.
  intros Hp Hc Hs. unfold accepts, shouldSendNotification, isDoNotDisturbTime,
    categoryBlocked, updatePreferences.
  cbn [snd preferences categories doNotDisturb doNotDisturbSchedule].
  rewrite Hp, Hc, Hs. cbn [default noPreferences categories doNotDisturbSchedule].
  rewrite andb_false_r. reflexivity.
Qed.

Lemma X11_dnd_without_schedule_is_inert_witness :
  accepts (envAt 23 quietBrowser) (request "t" None (Some "low") None)
    (updatePreferences
       {| u_categories := None; u_doNotDisturb := Some true;
          u_doNotDisturbSchedule := None |} Service.new).2 = true.
Proof.
  apply X11_dnd_without_schedule_is_inert; reflexivity.
Defined.

(** ** Reading the history *)

(** X12: [getNotificationHistory] always returns an end piece of the
    history, but [limit = 0] returns the whole history ([slice(-0)] is
    [slice(0)]), and a negative limit [-k] drops the [k] oldest records. *)
Theorem X12_history_limit_edges (s : State) :
  getNotificationHistory (Some 0%Z) s = notificationHistory s
  ∧ (∀ limit, getNotificationHistory limit s `suffix_of` notificationHistory s)
  ∧ (∀ k, (0 < k)%Z →
       getNotificationHistory (Some (- k)%Z) s
       = drop (Z.to_nat k) (notificationHistory s)).
Proof.
  split; [|split].
  - unfold getNotificationHistory, Js.slice_from.
    change (- default 50%Z (Some 0%Z))%Z with 0%Z. cbn [Z.ltb Z.compare].
    rewrite Z.min_l by apply Nat2Z.is_nonneg. reflexivity.
  - intros limit. unfold getNotificationHistory, Js.slice_from.
    apply suffix_drop.
  - intros k Hk. unfold getNotificationHistory, Js.slice_from.
    change (default 50%Z (Some (- k)%Z)) with (- k)%Z.
    rewrite Z.opp_involutive.
    assert ((k <? 0)%Z = false) as -> by (apply Z.ltb_ge; lia).
    destruct (Z.le_ge_cases k (Z.of_nat (length (notificationHistory s))))
      as [Hle|Hge].
    + rewrite Z.min_l by exact Hle. reflexivity.
    + rewrite Z.min_r by exact Hge. rewrite Nat2Z.id.
      rewrite !drop_ge; [reflexivity | lia | lia].
Qed.

Lemma X12_history_limit_edges_witness :
  getNotificationHistory (Some (- 1)%Z) (run threeCalls Service.new).1
  = drop 1 (notificationHistory (run threeCalls Service.new).1).
Proof.
  apply (proj2 (proj2 (X12_history_limit_edges (run threeCalls Service.new).1))
           1%Z).
  reflexivity.
Defined.

(** ** The do-not-disturb window *)

(** X13: a schedule whose start and end are equal is never active; and for
    different start and end, swapping them gives the complementary window:
    an hour is inside one exactly when it is outside the other. *)
Theorem X13_window_swap_is_complement (s1 s2 : State) (p1 p2 : Preferences)
    (st en h : Z) :
  preferences s1 = Some p1 →
  doNotDisturbSchedule p1 = Some {| start := st; stop := en |} →
  preferences s2 = Some p2 →
  doNotDisturbSchedule p2 = Some {| start := en; stop := st |} →
  (st = en → isDoNotDisturbTime s1 h = false)
  ∧ (st ≠ en → isDoNotDisturbTime s1 h = negb (isDoNotDisturbTime s2 h)).
Proof.
  intros Hp1 Hs1 Hp2 Hs2.
  rewrite (isDoNotDisturbTime_schedule s1 p1 Hp1 st en h Hs1),
          (isDoNotDisturbTime_schedule s2 p2 Hp2 en st h Hs2).
  rewrite !Z.geb_leb.
  split; intros Hse;
    destruct (Z.leb_spec st en), (Z.leb_spec en st), (Z.leb_spec st h),
             (Z.leb_spec en h), (Z.ltb_spec h en), (Z.ltb_spec h st);
    simpl; try reflexivity; lia.
Qed.

Lemma X13_window_swap_is_complement_witness :
  isDoNotDisturbTime nightState 3 = negb (isDoNotDisturbTime dayState 3).
Proof.
  apply (X13_window_swap_is_complement nightState dayState
           nightPreferences dayPreferences 22 8 3
           eq_refl eq_refl eq_refl eq_refl).
  discriminate.
Defined.

(** ** The two click handlers *)

Lemma lookup_insert_other {A} (d : gmap string A) (k k' : string) (v : A) :
  k ≠ k' → <[k := v]> d !! k' = d !! k'.
Proof. intros Hne. apply lookup_insert_ne, Hne. Qed.

(** The target depends on five properties of the data only. *)
Lemma targetUrl_ext (d1 d2 : gmap string Js.value) :
  d1 !! "category" = d2 !! "category" →
  d1 !! "groupId" = d2 !! "groupId" →
  d1 !! "chatId" = d2 !! "chatId" →
  d1 !! "messageId" = d2 !! "messageId" →
  d1 !! "url" = d2 !! "url" →
  Worker.targetUrl d1 = Worker.targetUrl d2.
Proof.
  intros Hc Hg Hch Hm Hu. unfold Worker.targetUrl.
  rewrite Hc, Hg, Hch, Hm, Hu. reflexivity.
Qed.

Lemma is_str_Str (c c' : string) :
  Js.is_str (Some (Js.Str c)) c' = String.eqb c c'.
Proof. reflexivity. Qed.

(** X14: the page-side click handler never reads [url]: adding, changing or
    removing that property changes nothing. It assigns no location at all
    exactly for a [message] without a truthy [groupId] or [chatId], and it
    sends [security] to ["/notifications"]. *)
Theorem X14_page_click_ignores_url (c : string) (d : gmap string Js.value)
    (v : Js.value) :
  Service.handleNotificationClick c (<["url" := v]> d)
  = Service.handleNotificationClick c d
  ∧ Service.handleNotificationClick c (delete "url" d)
    = Service.handleNotificationClick c d
  ∧ (Service.handleNotificationClick c d = None ↔
     c = Config.MESSAGE ∧ Js.truthy (d !! "groupId") = false
     ∧ Js.truthy (d !! "chatId") = false)
  ∧ Service.handleNotificationClick Config.SECURITY d = Some "/notifications".
Proof.
  split; [|split; [|split]].
  - unfold Service.handleNotificationClick.
    rewrite !lookup_insert_ne by discriminate. reflexivity.
  - unfold Service.handleNotificationClick.
    rewrite !lookup_delete_ne by discriminate. reflexivity.
  - unfold Service.handleNotificationClick.
    destruct (String.eqb_spec c Config.MESSAGE) as [->|Hne].
    + destruct (Js.truthy (d !! "groupId")), (Js.truthy (d !! "chatId"));
        split; try discriminate; try (intros (_ & ? & ?); discriminate);
        intros _; auto.
    + split; [|intros (? & _); contradiction].
      destruct (String.eqb c Config.GROUP_INVITE); [discriminate|].
      destruct (String.eqb c Config.MENTION); discriminate.
  - reflexivity.
Qed.

(** X15: apart from the three cases the worker treats on its own, the two
    click handlers agree: for a payload without a truthy [url], a category
    other than [security], and not a [message] lacking both ids, the page
    assigns the very location the worker computes for the same category and
    payload. *)
Theorem X15_click_handlers_agree (c : string) (d : gmap string Js.value) :
  Js.truthy (d !! "url") = false →
  c ≠ Config.SECURITY →
  (c = Config.MESSAGE →
   Js.truthy (d !! "groupId") = true ∨ Js.truthy (d !! "chatId") = true) →
  Js.Str <$> Service.handleNotificationClick c d
  = Some (Worker.targetUrl (<["category" := Js.Str c]> d)).
Proof.
  intros Hurl Hsec Hmsg.
  rewrite targetUrl_no_url
    by (rewrite lookup_insert_ne by discriminate; exact Hurl).
  rewrite lookup_insert_eq, !is_str_Str.
  rewrite !lookup_insert_ne by discriminate.
  unfold Service.handleNotificationClick.
  destruct (String.eqb_spec c Config.MESSAGE) as [Hm|Hm].
  - destruct (Hmsg Hm) as [Hg|Hch].
    + rewrite Hg. reflexivity.
    + rewrite Hch. destruct (Js.truthy (d !! "groupId")); reflexivity.
  - destruct (String.eqb c Config.GROUP_INVITE); [reflexivity|].
    destruct (String.eqb c Config.MENTION); [reflexivity|].
    destruct (String.eqb_spec c Config.SECURITY); [contradiction | reflexivity].
Qed.

Lemma X15_click_handlers_agree_witness :
  Js.Str <$> Service.handleNotificationClick "mention"
               {["groupId" := Js.Str "g1"; "messageId" := Js.Str "m1"]}
  = Some (Worker.targetUrl
            (<["category" := Js.Str "mention"]>
               {["groupId" := Js.Str "g1"; "messageId" := Js.Str "m1"]})).
Proof.
  apply X15_click_handlers_agree.
  - vm_compute. reflexivity.
  - discriminate.
  - discriminate.
Defined.

(** ** From the page to the worker *)

(** X16: a notification that [sendNotification] built and posted to the
    worker is shown with its title and body, and a click on it is routed by
    the notification's own category applied to the request's payload: a
    [category] property inside the payload is overridden, and the
    [timestamp] and [swVersion] the worker adds play no part. *)
Theorem X16_posted_notification_routes_by_its_category (e : Env) (r : Request)
    (t_data t_tag : Z) :
  ∃ o : Worker.Options,
    Worker.handlePushNotification t_data t_tag
      (toPush (Single (mkNotification e r)))
    = Some (Some (r_title r), o)
    ∧ Worker.body o = Some (r_body r)
    ∧ Worker.data o !! "category" = Some (Js.Str (categoryOf r))
    ∧ Worker.targetUrl (Worker.data o)
      = Worker.targetUrl
          (<["category" := Js.Str (categoryOf r)]> (default ∅ (r_data r))).
Proof.
  eexists. split; [reflexivity|]. split; [reflexivity|].
  cbn [Worker.data toPush mkNotification Worker.p_data Worker.p_category
       default category data].
  split.
  - rewrite !lookup_insert_ne by discriminate. apply lookup_insert_eq.
  - apply targetUrl_ext; rewrite !(lookup_insert_ne _ "swVersion"),
      !(lookup_insert_ne _ "timestamp") by discriminate; reflexivity.
Qed.

(** X17: the worker never sees the tag the page computed: what
    [sendImmediateNotification] posts has no top-level [tag], so every
    notification the worker shows for the page, single or summary, is tagged
    with its category and the time of display. *)
Theorem X17_worker_tag_is_category_and_time (n : Outgoing) (t_data t_tag : Z) :
  ∃ (t : option string) (o : Worker.Options),
    Worker.handlePushNotification t_data t_tag (toPush n) = Some (t, o)
    ∧ Worker.tag o
      = match n with
        | Single x => category x
        | Grouped g => s_category g
        end +:+ "_" +:+ Js.of_Z t_tag.
Proof.
  destruct n as [x|g]; eexists _, _; split; reflexivity.
Qed.

(** ** Action buttons *)

(** X18: the reply button and a plain click order the two ids differently.
    For a [message] payload without [url] that has both a truthy [chatId]
    and a truthy [groupId], a click goes to the group and a reply to the
    chat; with a [groupId] only, the reply opens [/chat/{groupId}]; with
    neither, ["/chat/undefined?reply=true"]. *)
Theorem X18_reply_prefers_chat (d : gmap string Js.value) :
  (Js.truthy (d !! "chatId") = true →
   handleNotificationAction "reply" d
   = OpensWindow ("/chat/" +:+ Js.template (d !! "chatId") +:+ "?reply=true"))
  ∧ (Js.truthy (d !! "chatId") = false →
     handleNotificationAction "reply" d
     = OpensWindow ("/chat/" +:+ Js.template (d !! "groupId") +:+ "?reply=true"))
  ∧ (d !! "chatId" = None → d !! "groupId" = None →
     handleNotificationAction "reply" d
     = OpensWindow "/chat/undefined?reply=true")
  ∧ (Js.truthy (d !! "url") = false →
     d !! "category" = Some (Js.Str "message") →
     Js.truthy (d !! "groupId") = true →
     Worker.targetUrl d = Js.Str ("/groups/" +:+ Js.template (d !! "groupId"))).
Proof.
  unfold handleNotificationAction, valueOr. cbn [String.eqb Ascii.eqb Bool.eqb].
  split; [|split; [|split]].
  - intros ->. reflexivity.
  - intros ->. reflexivity.
  - intros -> ->. reflexivity.
  - intros Hu Hc Hg. rewrite (targetUrl_no_url d Hu), Hc, Hg. reflexivity.
Qed.

Lemma X18_reply_prefers_chat_witness :
  handleNotificationAction "reply"
    {["chatId" := Js.Str "c1"; "groupId" := Js.Str "g1";
      "category" := Js.Str "message"]}
  = OpensWindow "/chat/c1?reply=true"
  ∧ Worker.targetUrl
      {["chatId" := Js.Str "c1"; "groupId" := Js.Str "g1";
        "category" := Js.Str "message"]}
    = Js.Str "/groups/g1".
Proof.
  destruct (X18_reply_prefers_chat
              {["chatId" := Js.Str "c1"; "groupId" := Js.Str "g1";
                "category" := Js.Str "message"]})
    as (Hreply & _ & _ & Hclick).
  split.
  - apply Hreply. vm_compute. reflexivity.
  - apply Hclick; vm_compute; reflexivity.
Defined.

(** ** Titles *)

(** X19: [getCategoryTitle] has a label of its own for each of the six
    categories, no two alike and none equal to the fallback. For the name of
    a property that every object inherits ([constructor], [toString],
    [__proto__] and the like) it returns that inherited value, not a
    string. For every other category it answers ["Notifications"]. The
    result is the title of the summary of the category. *)
Theorem X19_titles (c : string) (ns : list Notification) :
  s_title (mkSummary c ns) = getCategoryTitle c
  ∧ (c ∉ Config.CATEGORIES → c ∉ Js.objectPrototype →
     getCategoryTitle c = Text "Notifications")
  ∧ (c ∈ Js.objectPrototype → getCategoryTitle c = Inherited c)
  ∧ (c ∈ Config.CATEGORIES →
     ∃ t, getCategoryTitle c = Text t ∧ t ≠ "Notifications")
  ∧ (∀ c', c ∈ Config.CATEGORIES → c' ∈ Config.CATEGORIES →
       getCategoryTitle c = getCategoryTitle c' → c = c').
Proof.
  split; [reflexivity|]. split; [|split; [|split]].
  - intros Hc Hproto. unfold getCategoryTitle, titles.
    rewrite !lookup_insert, lookup_singleton.
    repeat case_decide; subst;
      try solve [exfalso; apply Hc; unfold Config.CATEGORIES;
                 repeat (first [apply list_elem_of_here
                               | apply list_elem_of_further])].
    unfold Js.inherited. rewrite bool_decide_eq_false_2 by exact Hproto.
    reflexivity.
  - unfold Js.objectPrototype. intros Hc.
    repeat (apply elem_of_cons in Hc as [->|Hc]; [vm_compute; reflexivity|]).
    by apply elem_of_nil in Hc.
  - unfold Config.CATEGORIES. intros Hc.
    repeat (apply elem_of_cons in Hc as [->|Hc];
            [eexists; split; [vm_compute; reflexivity | discriminate]|]).
    by apply elem_of_nil in Hc.
  - unfold Config.CATEGORIES. intros c' Hc Hc'.
    repeat (apply elem_of_cons in Hc as [->|Hc];
            [repeat (apply elem_of_cons in Hc' as [->|Hc'];
                     [vm_compute; first [reflexivity | discriminate]|]);
             by apply elem_of_nil in Hc'|]).
    by apply elem_of_nil in Hc.
Qed.

(** ** Initialisation *)

Lemma defaultPreferences_enabled (c : string) :
  default ∅ (categories defaultPreferences) !! c = Some true
  ↔ c ∈ Config.CATEGORIES.
Proof.
  split; [apply defaultPreferences_only_six|].
  unfold Config.CATEGORIES. intros Hc.
  repeat (apply elem_of_cons in Hc as [->|Hc]; [vm_compute; reflexivity|]).
  by apply elem_of_nil in Hc.
Qed.

Lemma defaultPreferences_values (c : string) (enabled : bool) :
  default ∅ (categories defaultPreferences) !! c = Some enabled →
  enabled = true.
Proof.
  unfold defaultPreferences. simpl.
  rewrite !lookup_insert, lookup_singleton.
  repeat case_decide; intros Hl; congruence.
Qed.

Lemma accepts_defaultPreferences (e : Env) (r : Request) (s : State) :
  preferences s = Some defaultPreferences →
  accepts e r s = true
  ↔ categoryOf r ∈ Config.CATEGORIES ∨ categoryOf r ∈ Js.objectPrototype.
Proof.
  intros Hp.
  assert (accepts e r s
          = match default ∅ (categories defaultPreferences) !! categoryOf r with
            | Some enabled => enabled
            | None => Js.inherited (categoryOf r)
            end) as ->.
  { unfold accepts, shouldSendNotification, categoryBlocked. rewrite Hp.
    change (categories defaultPreferences)
      with (Some (default ∅ (categories defaultPreferences))).
    cbn [doNotDisturb defaultPreferences andb].
    destruct (_ !! categoryOf r) as [[|]|]; [reflexivity..|].
    destruct (Js.inherited (categoryOf r)); reflexivity. }
  destruct (default ∅ (categories defaultPreferences) !! categoryOf r)
    as [enabled|] eqn:E.
  - pose proof (defaultPreferences_values _ _ E) as ->.
    split; [intros _; left; apply defaultPreferences_enabled, E | reflexivity].
  - unfold Js.inherited. rewrite bool_decide_eq_true. split; [auto|].
    intros [Hc|Hc]; [|exact Hc].
    apply defaultPreferences_enabled in Hc. congruence.
Qed.

(** X20: [initialize] returns [true] exactly when the platform is supported,
    the worker registers and, if permission is granted, the push
    subscription succeeds; only then is [isInitialized] set. As soon as the
    worker has registered the default preferences are stored, also when the
    call then fails at the subscription, and from then on the category
    check of the dispatcher passes, at every hour and priority, exactly the
    six categories and the names of the properties every object inherits
    ([constructor], [toString], [__proto__] and the like). *)
Theorem X20_initialize (pf : Platform) (l : Lifecycle) :
  ((initialize pf l).1 = true ↔
   supported pf = true ∧ registers pf = true
   ∧ (requestPermission pf = "granted" → subscribes pf = true))
  ∧ isInitialized (initialize pf l).2
    = (initialize pf l).1 || isInitialized l
  ∧ (supported pf = true → registers pf = true →
     preferences (service (initialize pf l).2) = Some defaultPreferences
     ∧ ∀ e r, accepts e r (service (initialize pf l).2) = true
              ↔ categoryOf r ∈ Config.CATEGORIES
                ∨ categoryOf r ∈ Js.objectPrototype).
Proof.
  unfold initialize.
  destruct (supported pf), (registers pf); cbn [negb];
    try (split; [split; [discriminate | intros (? & ? & _); discriminate]|];
         split; [reflexivity | intros; discriminate]).
  destruct (String.eqb_spec (requestPermission pf) "granted") as [Hg|Hg];
    [destruct (subscribes pf)|]; cbn [fst snd service isInitialized].
  - split; [split; auto|]. split; [reflexivity|]. intros _ _.
    split; [reflexivity|]. intros e r. by apply accepts_defaultPreferences.
  - split; [split; [discriminate | intros (_ & _ & H); discriminate (H Hg)]|].
    split; [reflexivity|]. intros _ _.
    split; [reflexivity|]. intros e r. by apply accepts_defaultPreferences.
  - split; [split; [intros _; repeat split; intros; contradiction | reflexivity]|].
    split; [reflexivity|]. intros _ _.
    split; [reflexivity|]. intros e r. by apply accepts_defaultPreferences.
Qed.

(** A failed subscription: [false], yet the preferences are in place. *)
Lemma X20_initialize_witness :
  (initialize noPushPlatform freshLifecycle).1 = false
  ∧ preferences (service (initialize noPushPlatform freshLifecycle).2)
    = Some defaultPreferences.
Proof.
  split; [reflexivity|].
  apply (proj2 (proj2 (X20_initialize noPushPlatform freshLifecycle))
           eq_refl eq_refl).
Defined.

(** ** Notification ids *)

Lemma noUnderscore_uint (d : Decimal.uint) :
  noUnderscore (NilEmpty.string_of_uint d) = true.
Proof. induction d; simpl; auto. Qed.

Lemma noUnderscore_of_Z (z : Z) : noUnderscore (Js.of_Z z) = true.
Proof.
  unfold Js.of_Z, NilZero.string_of_int, NilZero.string_of_uint.
  destruct (Z.to_int z) as [d|d]; destruct d; simpl;
    try reflexivity; apply noUnderscore_uint.
Qed.

Lemma of_Z_inj (a b : Z) : Js.of_Z a = Js.of_Z b → a = b.
Proof.
  unfold Js.of_Z. intros H.
  assert (∀ z, Z.to_int z ≠ Decimal.Pos Decimal.Nil
               ∧ Z.to_int z ≠ Decimal.Neg Decimal.Nil) as Hnn.
  { intros [|p|p]; simpl; split; try discriminate;
    intros [= Hp]; exact (DecimalPos.Unsigned.to_uint_nonnil p Hp). }
  apply (f_equal NilZero.int_of_string) in H.
  rewrite !NilZero.isi in H by apply Hnn.
  injection H as H. apply (f_equal Z.of_int) in H.
  rewrite !DecimalZ.of_to in H. exact H.
Qed.

Lemma split_at_underscore (s1 s2 r1 r2 : string) :
  noUnderscore s1 = true → noUnderscore s2 = true →
  s1 +:+ String (Ascii.ascii_of_nat 95) r1
  = s2 +:+ String (Ascii.ascii_of_nat 95) r2 →
  s1 = s2 ∧ r1 = r2.
Proof.
  revert s2. induction s1 as [|a s1 IH]; intros [|a2 s2] H1 H2 Heq;
    cbn [String.append noUnderscore] in *.
  - injection Heq as Hr. auto.
  - injection Heq as Ha _. subst a2.
    rewrite Ascii.eqb_refl in H2. discriminate.
  - injection Heq as Ha _. subst a.
    rewrite Ascii.eqb_refl in H1. discriminate.
  - injection Heq as Ha Heq. subst a2.
    apply andb_prop in H1 as [_ H1]. apply andb_prop in H2 as [_ H2].
    destruct (IH s2 H1 H2 Heq) as [Hs Hr]. subst. auto.
Qed.

(** X21: [generateNotificationId] is one-to-one: two ids are equal only if
    they were made at the same millisecond with the same random fragment. *)
Theorem X21_ids_are_one_to_one (now1 now2 : Z) (rnd1 rnd2 : string) :
  generateNotificationId now1 rnd1 = generateNotificationId now2 rnd2 →
  now1 = now2 ∧ rnd1 = rnd2.
Proof.
  unfold generateNotificationId. intros H.
  cbn [String.append] in H. injection H as H.
  destruct (split_at_underscore _ _ _ _ (noUnderscore_of_Z now1)
              (noUnderscore_of_Z now2) H) as [Hz Hr].
  split; [exact (of_Z_inj _ _ Hz) | exact Hr].
Qed.

Lemma X21_ids_are_one_to_one_witness :
  1700000000000%Z = 1700000000000%Z ∧ "k3j9x2m1q" = "k3j9x2m1q".
Proof.
  apply (X21_ids_are_one_to_one 1700000000000 1700000000000
           "k3j9x2m1q" "k3j9x2m1q").
  reflexivity.
Defined.

(** ** Nothing lost, nothing shown twice *)

Section Accounting.

Import stdpp.gmultiset.



End Accounting.




(** ** Title validation *)






(** ** The click listener *)

Lemma handleNotificationAction_ignores_url (a : string)
    (d : gmap string Js.value) (v : Js.value) :
  handleNotificationAction a (<["url" := v]> d) = handleNotificationAction a d.
Proof.
  unfold handleNotificationAction.
  rewrite !lookup_insert_ne by discriminate. reflexivity.
Qed.

(** X23: a click on an action button never follows the payload's [url],
    and an action outside the five known ones opens nothing; a click on the
    body of a notification that carries no data goes to
    ["/notifications"]. *)
Theorem X23_click_listener (client_open : bool) (a : string)
    (d : gmap string Js.value) (v : Js.value) :
  (a ≠ "" →
   onNotificationClick client_open a (Some (<["url" := v]> d))
   = onNotificationClick client_open a (Some d))
  ∧ (a ≠ "" → a ∉ ["reply"; "mark_read"; "dismiss"; "view_group"; "accept_invite"] →
     onNotificationClick client_open a (Some d) = inl (WarnsUnknown a))
  ∧ onNotificationClick client_open "" None
    = inr (if client_open
           then Worker.PostToClient (Js.Str "/notifications") ∅
           else Worker.OpenWindow (Js.Str "/notifications")).
Proof.
  split; [|split].
  - intros Ha. unfold onNotificationClick. apply String.eqb_neq in Ha.
    rewrite Ha. cbn [negb].
    change (default ∅ (Some (<["url" := v]> d))) with (<["url" := v]> d).
    change (default ∅ (Some d)) with d.
    rewrite handleNotificationAction_ignores_url. reflexivity.
  - intros Ha Hout. unfold onNotificationClick. apply String.eqb_neq in Ha.
    rewrite Ha. cbn [negb]. change (default ∅ (Some d)) with d.
    f_equal. unfold handleNotificationAction.
    repeat match goal with
    | |- context [String.eqb a ?k] =>
        destruct (String.eqb_spec a k) as [->|_];
          [exfalso; apply Hout;
           repeat (first [apply list_elem_of_here | apply list_elem_of_further])|]
    end.
    reflexivity.
  - destruct client_open; reflexivity.
Qed.

Lemma X23_click_listener_witness :
  onNotificationClick true "snooze" (Some {["url" := Js.Str "/custom"]})
  = inl (WarnsUnknown "snooze").
Proof.
  apply (proj1 (proj2 (X23_click_listener true "snooze"
                         {["url" := Js.Str "/custom"]} Js.Null))).
  - discriminate.
  - apply (bool_decide_unpack _). vm_compute. reflexivity.
Defined.
